(** * PDFSwifter-api: a shallow embedding of [main.py]

    Python strings are modelled as lists of Unicode code points ([list Z]),
    paths as such strings, the local filesystem as a finite map from paths
    to nodes (a file with its content, or a directory), and the process
    state touched by the handlers as a [World] threaded through a small
    state-and-exception monad [M].  The external collaborators (yt_dlp,
    pdfplumber, PyMuPDF, pdf2docx) are arguments of the definitions that
    call them; their results are taken as given. *)

From Stdlib Require Import ZArith Lia Ascii String.
From Stdlib Require Import DecimalNat.
From stdpp Require Import base list gmap.

Local Open Scope Z_scope.
Set Warnings "-register-all".

(* ------------------------------------------------------------------ *)
(** ** Strings *)

Abbreviation pystr := (list Z).

(** ASCII string literal as a Python [str] (list of code points). *)
Definition s2l (s : string) : pystr :=
  map (fun a => Z.of_nat (nat_of_ascii a)) (list_ascii_of_string s).

(** [str.endswith] *)
Definition ends_with (s suf : pystr) : bool :=
  bool_decide (suf `suffix_of` s).

(** [str.lower] on the code points that matter here: ASCII [A-Z] are
    lowered; other code points are kept as they are (Python also lowers
    other scripts, which no property below depends on). *)
Definition lower_cp (c : Z) : Z :=
  if (65 <=? c) && (c <=? 90) then c + 32 else c.

Definition py_lower (s : pystr) : pystr := map lower_cp s.

(** Decimal rendering of a natural number, as in [f"{n}"]. *)
Fixpoint uint_digits (d : Decimal.uint) : pystr :=
  match d with
  | Decimal.Nil => []
  | Decimal.D0 d => 48 :: uint_digits d
  | Decimal.D1 d => 49 :: uint_digits d
  | Decimal.D2 d => 50 :: uint_digits d
  | Decimal.D3 d => 51 :: uint_digits d
  | Decimal.D4 d => 52 :: uint_digits d
  | Decimal.D5 d => 53 :: uint_digits d
  | Decimal.D6 d => 54 :: uint_digits d
  | Decimal.D7 d => 55 :: uint_digits d
  | Decimal.D8 d => 56 :: uint_digits d
  | Decimal.D9 d => 57 :: uint_digits d
  end.

Definition py_str_nat (n : nat) : pystr := uint_digits (Nat.to_uint n).

(* ------------------------------------------------------------------ *)
(** ** [uuid.uuid4().hex]: [ '%032x' % int ] of a 128-bit integer *)

Definition hex_digit (d : Z) : Z := if d <? 10 then 48 + d else 87 + d.

Fixpoint hex_digits (k : nat) (u : Z) : pystr :=
  match k with
  | O => []
  | S k' => hex_digits k' (u / 16) ++ [hex_digit (u mod 16)]
  end.

Definition uuid_hex (u : Z) : pystr := hex_digits 32 u.

(* ------------------------------------------------------------------ *)
(** ** [os.path] (posixpath) *)

Definition SEP : Z := 47.   (* '/' *)
Definition DOT : Z := 46.   (* '.' *)

(** [os.path.join(a, b)] for a relative [b] and [a] not ending in '/'. *)
Definition path_join (a b : pystr) : pystr := a ++ [SEP] ++ b.

(** Index of the last occurrence of [c] in [s] ([str.rfind], -1 if absent). *)
Fixpoint rfind_aux (c : Z) (s : pystr) (i : Z) (best : Z) : Z :=
  match s with
  | [] => best
  | x :: s' => rfind_aux c s' (i + 1) (if x =? c then i else best)
  end.

Definition rfind (s : pystr) (c : Z) : Z := rfind_aux c s 0 (-1).

(** [os.path.basename(p)] = [p[p.rfind('/') + 1:]] *)
Definition basename (p : pystr) : pystr := drop (Z.to_nat (rfind p SEP + 1)) p.

(** [posixpath.splitext] (via [genericpath._splitext]): the extension
    starts at the last dot after the last separator, unless everything
    between the separator and that dot is dots (leading dots of a hidden
    file do not start an extension). *)
Definition splitext (p : pystr) : pystr * pystr :=
  let sepIndex := rfind p SEP in
  let dotIndex := rfind p DOT in
  if sepIndex <? dotIndex then
    let between := drop (Z.to_nat (sepIndex + 1))
                        (take (Z.to_nat dotIndex) p) in
    if forallb (fun c => c =? DOT) between
    then (p, [])
    else (take (Z.to_nat dotIndex) p, drop (Z.to_nat dotIndex) p)
  else (p, []).

(* ------------------------------------------------------------------ *)
(** ** [ascii_filename] and [safe_stem] *)

(** [unicodedata.normalize("NFKD", s)] followed by
    [.encode("ASCII", "ignore")]: every code point is replaced by its full
    compatibility decomposition [decomp], then code points outside ASCII
    are dropped.  NFKD also reorders combining marks, but those are never
    ASCII, so the reordering does not change what the ASCII filter keeps. *)
Definition ascii_ignore (decomp : Z -> list Z) (s : pystr) : pystr :=
  List.filter (fun c => (0 <=? c) && (c <? 128)) (flat_map decomp s).

(** The character class [A-Za-z0-9._-]. *)
Definition allowed_cp (c : Z) : bool :=
  ((65 <=? c) && (c <=? 90)) || ((97 <=? c) && (c <=? 122))
  || ((48 <=? c) && (c <=? 57)) || (c =? 46) || (c =? 95) || (c =? 45).

(** [re.sub(r"[^A-Za-z0-9._-]", "_", s)] *)
Definition re_sub_disallowed (s : pystr) : pystr :=
  map (fun c => if allowed_cp c then c else 95) s.

Definition ascii_filename (decomp : Z -> list Z) (filename : pystr) : pystr :=
  re_sub_disallowed (ascii_ignore decomp filename).

Definition safe_stem (decomp : Z -> list Z) (filename : pystr) : pystr :=
  let stem := fst (splitext (basename filename)) in
  let sanitized := ascii_filename decomp stem in
  match sanitized with [] => s2l "file" | _ => sanitized end.

(** A part of the Unicode compatibility decomposition table (the Latin-1
    letters with diacritics); every other code point is its own
    decomposition here.  Used to evaluate the sanitizer on examples. *)
Definition latin1_upper : list (Z * Z * Z) :=
  [(192, 65, 768); (193, 65, 769); (194, 65, 770); (195, 65, 771);
   (196, 65, 776); (197, 65, 778); (199, 67, 807); (200, 69, 768);
   (201, 69, 769); (202, 69, 770); (203, 69, 776); (204, 73, 768);
   (205, 73, 769); (206, 73, 770); (207, 73, 776); (209, 78, 771);
   (210, 79, 768); (211, 79, 769); (212, 79, 770); (213, 79, 771);
   (214, 79, 776); (217, 85, 768); (218, 85, 769); (219, 85, 770);
   (220, 85, 776); (221, 89, 769)].

Definition ucd_decomp (c : Z) : list Z :=
  if c =? 255 then [121; 776] else
  match find (fun '(u, _, _) => (u =? c) || (u + 32 =? c)) latin1_upper with
  | Some (u, b, m) => if u =? c then [b; m] else [b + 32; m]
  | None => [c]
  end.

(* ------------------------------------------------------------------ *)
(** ** Files, the filesystem and the process state *)

(** A PDF table as [page.extract_table()] returns it: rows of cells, a
    cell being [None] or a string. *)
Abbreviation table := (list (list (option pystr))).

(** File contents.  Uploaded payloads are raw bytes; the artifacts written
    by the collaborators are described by what they hold. *)
Inductive blob :=
  | Raw (bytes : list Z)
  | Workbook (sheets : list (pystr * (list (option pystr) * table)))
      (* sheet name, header row, data rows *)
  | Document (source : blob)
  | PngImage (source : blob) (page_index : nat)
  | Archive (entries : list (pystr * blob)).

Inductive node := File (b : blob) | Dir.

(** Python exceptions raised along the modelled paths, with [str(e)]. *)
Inductive exn :=
  | ValueError (msg : pystr)
  | FileNotFoundError (msg : pystr)
  | IsADirectoryError (msg : pystr)
  | FileExistsError (msg : pystr)
  | OtherError (msg : pystr).

Definition exn_str (e : exn) : pystr :=
  match e with
  | ValueError m | FileNotFoundError m | IsADirectoryError m
  | FileExistsError m | OtherError m => m
  end.

(** The filesystem and the deletions armed by [delete_file_later]
    (one daemon thread each: path and delay in seconds). *)
Record World := mkWorld {
  fs : gmap pystr node;
  pending : list (pystr * nat)
}.

(** State and exceptions. *)
Definition M (A : Type) : Type := World -> World * (exn + A).

Global Instance M_ret : MRet M := fun A x w => (w, inr x).
Global Instance M_bind : MBind M := fun A B k m w =>
  match m w with
  | (w', inl e) => (w', inl e)
  | (w', inr a) => k a w'
  end.

Definition raise {A} (e : exn) : M A := fun w => (w, inl e).

(** [try: m  except Exception as e: ...]: the outcome as a value. *)
Definition attempt {A} (m : M A) : M (exn + A) := fun w =>
  let '(w', r) := m w in (w', inr r).

Definition set_fs (f : gmap pystr node) (w : World) : World :=
  mkWorld f (pending w).

Fixpoint mapM {A B} (f : A -> M B) (l : list A) : M (list B) :=
  match l with
  | [] => mret []
  | x :: l' => y ← f x; ys ← mapM f l'; mret (y :: ys)
  end.

(** [os.path.exists] *)
Definition os_path_exists (p : pystr) : M bool := fun w =>
  (w, inr (match fs w !! p with Some _ => true | None => false end)).

(** [os.remove]: files only. *)
Definition os_remove (p : pystr) : M unit := fun w =>
  match fs w !! p with
  | Some (File _) => (set_fs (delete p (fs w)) w, inr tt)
  | Some Dir => (w, inl (IsADirectoryError (s2l "Is a directory")))
  | None => (w, inl (FileNotFoundError (s2l "No such file or directory")))
  end.

(** Writing a whole file ([open(p, "wb")] followed by writes and close, as
    the collaborators do); the parent directory is assumed present (the
    category roots are created at import). *)
Definition write_file (p : pystr) (b : blob) : M unit := fun w =>
  match fs w !! p with
  | Some Dir => (w, inl (IsADirectoryError (s2l "Is a directory")))
  | _ => (set_fs (<[p := File b]> (fs w)) w, inr tt)
  end.

(** [buffer.write(chunk)] on a file opened with "wb". *)
Definition append_bytes (p : pystr) (chunk : list Z) : M unit := fun w =>
  match fs w !! p with
  | Some (File (Raw b)) => (set_fs (<[p := File (Raw (b ++ chunk))]> (fs w)) w, inr tt)
  | _ => (w, inl (OtherError (s2l "I/O operation on closed file")))
  end.

Definition read_file (p : pystr) : M blob := fun w =>
  match fs w !! p with
  | Some (File b) => (w, inr b)
  | Some Dir => (w, inl (IsADirectoryError (s2l "Is a directory")))
  | None => (w, inl (FileNotFoundError (s2l "No such file or directory")))
  end.

(** [os.makedirs(p, exist_ok=True)] *)
Definition makedirs_exist_ok (p : pystr) : M unit := fun w =>
  match fs w !! p with
  | Some Dir => (w, inr tt)
  | Some (File _) => (w, inl (FileExistsError (s2l "File exists")))
  | None => (set_fs (<[p := Dir]> (fs w)) w, inr tt)
  end.

(** [k] is [p] or lies below the directory [p]. *)
Definition is_under (p k : pystr) : bool :=
  bool_decide (k = p) || bool_decide ((p ++ [SEP]) `prefix_of` k).

(** [shutil.rmtree(p, ignore_errors=True)]: removes the directory [p] and
    everything below it; on anything but a directory it does nothing. *)
Definition rmtree_fs (p : pystr) (f : gmap pystr node) : gmap pystr node :=
  match f !! p with
  | Some Dir => filter (fun kv : pystr * node => is_under p kv.1 = false) f
  | _ => f
  end.

Definition rmtree_ignore (p : pystr) : M unit := fun w =>
  (set_fs (rmtree_fs p (fs w)) w, inr tt).

(** [delete_file_later(file_path, delay)]: starts a daemon thread and
    returns at once; the thread is recorded as a pending deletion. *)
Definition delete_file_later (file_path : pystr) (delay : nat) : M unit := fun w =>
  (mkWorld (fs w) (pending w ++ [(file_path, delay)]), inr tt).

(** The body of that thread once [time.sleep(delay)] has returned:
    [if os.path.exists(file_path): os.remove(file_path)]. *)
Definition delete_thread_body (file_path : pystr) : M unit :=
  b ← os_path_exists file_path;
  if (b : bool) then os_remove file_path else mret tt.

(** The scheduler firing the [i]-th pending deletion: the entry leaves the
    pending list and its thread body runs once (the thread then ends). *)
Definition fire_pending (i : nat) : M unit := fun w =>
  match (pending w !! i : option (pystr * nat)) with
  | Some (p, _) =>
      delete_thread_body p (mkWorld (fs w) (take i (pending w) ++ drop (S i) (pending w)))
  | None => (w, inr tt)
  end.

(* ------------------------------------------------------------------ *)
(** ** Constants *)

Definition DOWNLOAD_FOLDER : pystr := s2l "downloads".
Definition PDF_DOWNLOAD_FOLDER : pystr := s2l "pdf_uploads".
Definition EXCEL_DOWNLOAD_FOLDER : pystr := s2l "excel_outputs".
Definition WORD_DOWNLOAD_FOLDER : pystr := s2l "word_outputs".
Definition IMAGE_DOWNLOAD_FOLDER : pystr := s2l "image_outputs".

Definition CHUNK_SIZE : nat := (1024 * 1024)%nat.

(* ------------------------------------------------------------------ *)
(** ** [UploadFile] and [save_upload_file] *)

Record UploadFile := mkUpload {
  up_filename : pystr;
  up_data : list Z;      (* the payload *)
  up_pos : nat           (* the read cursor *)
}.

(** [await upload_file.read(n)] *)
Definition upload_read (n : nat) (up : UploadFile) : list Z * UploadFile :=
  let chunk := take n (drop (up_pos up) (up_data up)) in
  (chunk, mkUpload (up_filename up) (up_data up) (up_pos up + length chunk)%nat).

(** [await upload_file.seek(0)] *)
Definition upload_seek0 (up : UploadFile) : UploadFile :=
  mkUpload (up_filename up) (up_data up) 0.

(** The [while True] loop of [save_upload_file]: read a chunk, stop on an
    empty one, otherwise write it.  Each non-final round consumes at least
    one byte, so [fuel] rounds beyond the remaining length are never
    reached (see [copy_loop_spec]). *)
Fixpoint copy_loop (chunk_size fuel : nat) (up : UploadFile) (file_path : pystr)
    : M UploadFile :=
  match fuel with
  | O => mret up
  | S fuel' =>
      let '(chunk, up') := upload_read chunk_size up in
      match chunk with
      | [] => mret up'
      | _ => append_bytes file_path chunk;; copy_loop chunk_size fuel' up' file_path
      end
  end.

(** [uuid.uuid4().hex + (ext.lower() if ext else "")] *)
Definition unique_upload_name (filename : pystr) (u : Z) : pystr :=
  let ext := snd (splitext filename) in
  uuid_hex u ++ (match ext with [] => [] | _ => py_lower ext end).

Definition upload_path (destination_folder filename : pystr) (u : Z) : pystr :=
  path_join destination_folder (unique_upload_name filename u).

(** [save_upload_file]; [u] is the value drawn by [uuid.uuid4()].  Returns
    the path and the upload object in its final state. *)
Definition save_upload_file (upload_file : UploadFile) (destination_folder : pystr)
    (u : Z) : M (pystr * UploadFile) :=
  let file_path := upload_path destination_folder (up_filename upload_file) u in
  write_file file_path (Raw []);;
  up' ← copy_loop CHUNK_SIZE (S (length (up_data upload_file))) upload_file file_path;
  mret (file_path, upload_seek0 up').

(* ------------------------------------------------------------------ *)
(** ** Conversions *)

Definition lift_result {A} (r : exn + A) : M A := fun w => (w, r).

(** The tables kept by the loop of [convert_pdf_tables_to_excel]:
    [if table:] holds for a non-empty list; header [table[0]], rows
    [table[1:]]. *)
Definition tables_of (pages : list (option table))
    : list (list (option pystr) * table) :=
  flat_map (fun t => match t with
                     | Some (hdr :: rows) => [(hdr, rows)]
                     | _ => []
                     end) pages.

(** [convert_pdf_tables_to_excel]; [plumber] is [pdfplumber.open] followed
    by [page.extract_table()] on every page. *)
Definition convert_pdf_tables_to_excel
    (plumber : blob -> exn + list (option table)) (pdf_path excel_path : pystr)
    : M unit :=
  b ← read_file pdf_path;
  pages ← lift_result (plumber b);
  match tables_of pages with
  | [] => raise (ValueError (s2l "No tables found in PDF."))
  | all_tables =>
      write_file excel_path
        (Workbook (imap (fun i df => (s2l "Sheet" ++ py_str_nat (S i), df)) all_tables))
  end.

(** [f"{base_name}_page_{page_index + 1}.png"] *)
Definition page_png_name (base_name : pystr) (k : nat) : pystr :=
  base_name ++ s2l "_page_" ++ py_str_nat k ++ s2l ".png".

(** [zip_file.write(path, arcname=...)] on an archive opened with "w". *)
Definition zip_append (zip_path : pystr) (entry : pystr * blob) : M unit := fun w =>
  match fs w !! zip_path with
  | Some (File (Archive es)) =>
      (set_fs (<[zip_path := File (Archive (es ++ [entry]))]> (fs w)) w, inr tt)
  | _ => (w, inl (OtherError (s2l "Attempt to write to ZIP archive that was already closed")))
  end.

(** Body of the rendering loop: [page.get_pixmap()] and [pix.save(image_path)]. *)
Definition save_page_png (b : blob) (session_folder base_name : pystr) (page_index : nat)
    : M pystr :=
  let image_path := path_join session_folder (page_png_name base_name (S page_index)) in
  write_file image_path (PngImage b page_index);;
  mret image_path.

(** Body of the archiving loop. *)
Definition zip_write_image (zip_path image_path : pystr) : M unit :=
  c ← read_file image_path;
  zip_append zip_path (basename image_path, c).

(** [create_images_zip]; [page_count] is [fitz.open(...).page_count]. *)
Definition create_images_zip (page_count : blob -> exn + nat)
    (pdf_path session_folder zip_path base_name : pystr) : M unit :=
  b ← read_file pdf_path;
  n ← lift_result (page_count b);
  if (n =? 0)%nat then raise (ValueError (s2l "No pages found in PDF.")) else
  image_paths ← mapM (save_page_png b session_folder base_name) (seq 0 n);
  write_file zip_path (Archive []);;
  mapM (zip_write_image zip_path) image_paths;;
  mret tt.

(** [if not filename.lower().endswith(".mp4"):
        filename = os.path.splitext(filename)[0] + ".mp4"] *)
Definition mp4_filename (filename : pystr) : pystr :=
  if ends_with (py_lower filename) (s2l ".mp4") then filename
  else fst (splitext filename) ++ s2l ".mp4".

(** [download_video]; [ydl url outtmpl] is [ydl.extract_info(url)] then
    [ydl.prepare_filename(info)] (the options are the collaborator's). *)
Definition download_video (ydl : pystr -> pystr -> M pystr)
    (url output_template : pystr) : M pystr :=
  filename0 ← ydl url output_template;
  let filename := mp4_filename filename0 in
  ex ← os_path_exists filename;
  if (ex : bool) then mret filename
  else raise (FileNotFoundError (s2l "Failed to download video.")).

(* ------------------------------------------------------------------ *)
(** ** Endpoints *)

(** What a handler returns: a JSON body [{"error": msg}] or a
    [FileResponse(path, filename=..., headers=...)]. *)
Inductive response :=
  | JsonError (msg : pystr)
  | FileResponse (path filename : pystr) (headers : list (pystr * pystr)).

Definition QUOTE : Z := 34.

Definition file_response (decomp : Z -> list Z) (path : pystr) : response :=
  let safe_filename := ascii_filename decomp (basename path) in
  FileResponse path safe_filename
    [(s2l "Content-Disposition",
      s2l "attachment; filename=" ++ [QUOTE] ++ safe_filename ++ [QUOTE])].

(** [file.filename.lower().endswith(".pdf")] *)
Definition is_pdf_name (filename : pystr) : bool :=
  ends_with (py_lower filename) (s2l ".pdf").

Definition remove_if_exists (p : pystr) : M unit :=
  ex ← os_path_exists p;
  if (ex : bool) then os_remove p else mret tt.

Definition failed_convert (e : exn) : pystr :=
  s2l "Failed to convert PDF: " ++ exn_str e.

(** [GET /youtube/download] *)
Definition download_youtube (decomp : Z -> list Z) (ydl : pystr -> pystr -> M pystr)
    (url : pystr) : M response :=
  let output_template := path_join DOWNLOAD_FOLDER (s2l "%(id)s_%(title)s.%(ext)s") in
  r ← attempt (download_video ydl url output_template);
  match r with
  | inl e => mret (JsonError (s2l "Failed to download video: " ++ exn_str e))
  | inr filename =>
      delete_file_later filename 300;;
      mret (file_response decomp filename)
  end.

(** [GET /tiktok/download]; [ydl] is the downloader configured with the
    default options updated by [custom_options] (retries, fragment
    retries, skipping unavailable fragments), which only the collaborator
    reads. *)
Definition download_tiktok (decomp : Z -> list Z) (ydl : pystr -> pystr -> M pystr)
    (url : pystr) : M response :=
  let output_template :=
    path_join DOWNLOAD_FOLDER (s2l "tiktok_%(id)s_%(upload_date)s_%(timestamp)s.%(ext)s") in
  r ← attempt (download_video ydl url output_template);
  match r with
  | inl e => mret (JsonError (s2l "Failed to download TikTok video: " ++ exn_str e))
  | inr filename =>
      delete_file_later filename 300;;
      mret (file_response decomp filename)
  end.

(** [POST /pdf/to-excel]; [convert] runs the conversion (in the source
    [convert_pdf_tables_to_excel] in a worker thread), [u1] and [u2] are the
    two [uuid.uuid4()] draws. *)
Definition pdf_to_excel (decomp : Z -> list Z)
    (convert : pystr -> pystr -> M unit) (file : UploadFile) (u1 u2 : Z)
    : M response :=
  if negb (is_pdf_name (up_filename file)) then
    mret (JsonError (s2l "Please upload a PDF file."))
  else
  '(pdf_path, _) ← save_upload_file file PDF_DOWNLOAD_FOLDER u1;
  let base_name := safe_stem decomp (up_filename file) in
  let unique_id := uuid_hex u2 in
  let excel_filename := base_name ++ s2l "_" ++ unique_id ++ s2l ".xlsx" in
  let excel_path := path_join EXCEL_DOWNLOAD_FOLDER excel_filename in
  r ← attempt (convert pdf_path excel_path);
  match r with
  | inl (ValueError m) =>
      remove_if_exists excel_path;;
      delete_file_later pdf_path 300;;
      mret (JsonError m)
  | inl e =>
      remove_if_exists excel_path;;
      delete_file_later pdf_path 300;;
      mret (JsonError (failed_convert e))
  | inr _ =>
      delete_file_later pdf_path 300;;
      delete_file_later excel_path 600;;
      mret (file_response decomp excel_path)
  end.

(** [POST /pdf/to-word]; [convert] is [convert_pdf_to_docx] (pdf2docx). *)
Definition pdf_to_word (decomp : Z -> list Z)
    (convert : pystr -> pystr -> M unit) (file : UploadFile) (u1 u2 : Z)
    : M response :=
  if negb (is_pdf_name (up_filename file)) then
    mret (JsonError (s2l "Please upload a PDF file."))
  else
  '(pdf_path, _) ← save_upload_file file PDF_DOWNLOAD_FOLDER u1;
  let base_name := safe_stem decomp (up_filename file) in
  let unique_id := uuid_hex u2 in
  let word_filename := base_name ++ s2l "_" ++ unique_id ++ s2l ".docx" in
  let word_path := path_join WORD_DOWNLOAD_FOLDER word_filename in
  r ← attempt (convert pdf_path word_path);
  match r with
  | inl e =>
      remove_if_exists word_path;;
      delete_file_later pdf_path 300;;
      mret (JsonError (failed_convert e))
  | inr _ =>
      delete_file_later pdf_path 300;;
      delete_file_later word_path 600;;
      mret (file_response decomp word_path)
  end.

(** [POST /pdf/to-image]; [convert] is [create_images_zip]. *)
Definition pdf_to_image (decomp : Z -> list Z)
    (convert : pystr -> pystr -> pystr -> pystr -> M unit) (file : UploadFile)
    (u1 u2 : Z) : M response :=
  if negb (is_pdf_name (up_filename file)) then
    mret (JsonError (s2l "Please upload a PDF file."))
  else
  '(pdf_path, _) ← save_upload_file file PDF_DOWNLOAD_FOLDER u1;
  let base_name := safe_stem decomp (up_filename file) in
  let unique_id := uuid_hex u2 in
  let session_folder :=
    path_join IMAGE_DOWNLOAD_FOLDER (base_name ++ s2l "_" ++ unique_id) in
  makedirs_exist_ok session_folder;;
  let zip_path :=
    path_join IMAGE_DOWNLOAD_FOLDER (base_name ++ s2l "_" ++ unique_id ++ s2l ".zip") in
  r ← attempt (convert pdf_path session_folder zip_path base_name);
  match r with
  | inl (ValueError m) =>
      rmtree_ignore session_folder;;
      remove_if_exists zip_path;;
      delete_file_later pdf_path 300;;
      mret (JsonError m)
  | inl e =>
      rmtree_ignore session_folder;;
      remove_if_exists zip_path;;
      delete_file_later pdf_path 300;;
      mret (JsonError (failed_convert e))
  | inr _ =>
      rmtree_ignore session_folder;;
      delete_file_later pdf_path 300;;
      delete_file_later zip_path 600;;
      mret (file_response decomp zip_path)
  end.

(** The derived paths of the PDF handlers, as the handlers build them. *)
Definition excel_output_path (decomp : Z -> list Z) (filename : pystr) (u : Z) : pystr :=
  path_join EXCEL_DOWNLOAD_FOLDER
    (safe_stem decomp filename ++ s2l "_" ++ uuid_hex u ++ s2l ".xlsx").

Definition word_output_path (decomp : Z -> list Z) (filename : pystr) (u : Z) : pystr :=
  path_join WORD_DOWNLOAD_FOLDER
    (safe_stem decomp filename ++ s2l "_" ++ uuid_hex u ++ s2l ".docx").

Definition image_session_folder (decomp : Z -> list Z) (filename : pystr) (u : Z) : pystr :=
  path_join IMAGE_DOWNLOAD_FOLDER (safe_stem decomp filename ++ s2l "_" ++ uuid_hex u).

Definition image_zip_path (decomp : Z -> list Z) (filename : pystr) (u : Z) : pystr :=
  path_join IMAGE_DOWNLOAD_FOLDER
    (safe_stem decomp filename ++ s2l "_" ++ uuid_hex u ++ s2l ".zip").

(** The body of the error response after a failed conversion. *)
Definition conversion_error_message (e : exn) : pystr :=
  match e with ValueError m => m | _ => failed_convert e end.

(** [image_path] of page [page_index] in the rendering loop. *)
Definition page_image_path (session_folder base_name : pystr) (page_index : nat) : pystr :=
  path_join session_folder (page_png_name base_name (S page_index)).

(** A fetcher that merged into "downloads/x.mp4" but reports the name of
    the downloaded ".webm" stream. *)
Definition webm_fetcher : pystr -> pystr -> M pystr := fun _ _ w =>
  (set_fs (<[s2l "downloads/x.mp4" := File (Raw [0; 0; 0; 24])]> (fs w)) w,
   inr (s2l "downloads/x.webm")).

(** The filesystem after the rendering loop has saved the pages [l]. *)
Fixpoint write_pages (b : blob) (img : nat -> pystr) (f : gmap pystr node) (l : list nat)
    : gmap pystr node :=
  match l with
  | [] => f
  | i :: l' => write_pages b img (<[img i := File (PngImage b i)]> f) l'
  end.

(** A code point of the ASCII range. *)
Definition ascii_range (c : Z) : Prop := 0 <= c < 128.

(** A lowercase hexadecimal digit. *)
Definition lower_hex_cp (c : Z) : Prop := (48 <= c <= 57) \/ (97 <= c <= 102).

(** A page on which [extract_table] found no table with a first row. *)
Definition no_table (t : option table) : Prop :=
  match t with Some (_ :: _) => False | _ => True end.

(** [if table:] of the loop of [convert_pdf_tables_to_excel]. *)
Definition has_table (t : option table) : bool :=
  match t with Some (_ :: _) => true | _ => false end.

(* ================================================================== *)
(** * Properties *)

(** ** The sanitizer *)

Lemma allowed_cp_ascii c : allowed_cp c = true -> ascii_range c.
Proof.
  unfold allowed_cp, ascii_range. intros H.
  repeat (apply orb_true_iff in H as [H|H]);
    rewrite ?andb_true_iff, ?Z.leb_le, ?Z.eqb_eq in H; lia.
Qed.

Lemma re_sub_allowed s : Forall (fun c => allowed_cp c = true) (re_sub_disallowed s).
Proof.
  unfold re_sub_disallowed. apply Forall_forall. intros x Hx.
  apply list_elem_of_fmap in Hx as [c [-> _]].
  destruct (allowed_cp c) eqn:E; [exact E | reflexivity].
Qed.

Lemma ascii_filename_allowed decomp s :
  Forall (fun c => allowed_cp c = true) (ascii_filename decomp s).
Proof. apply re_sub_allowed. Qed.

Lemma re_sub_id s : Forall (fun c => allowed_cp c = true) s -> re_sub_disallowed s = s.
Proof.
  induction 1 as [|c s Hc _ IH]; [reflexivity|].
  unfold re_sub_disallowed in *. simpl. rewrite Hc. f_equal. exact IH.
Qed.

Section AsciiFixed.
Variable decomp : Z -> list Z.
Hypothesis decomp_ascii : forall c, ascii_range c -> decomp c = [c].

Lemma ascii_ignore_id s : Forall ascii_range s -> ascii_ignore decomp s = s.
Proof.
  induction 1 as [|c s Hc _ IH]; [reflexivity|].
  unfold ascii_ignore in *. simpl. rewrite decomp_ascii by exact Hc.
  simpl. unfold ascii_range in Hc.
  replace ((0 <=? c) && (c <? 128)) with true
    by (symmetry; apply andb_true_iff; split; [apply Z.leb_le|apply Z.ltb_lt]; lia).
  f_equal. exact IH.
Qed.

Lemma ascii_filename_ascii s i c :
  Forall ascii_range s -> s !! i = Some c ->
  ascii_filename decomp s !! i = Some (if allowed_cp c then c else 95).
Proof.
  intros Hs Hi. unfold ascii_filename. rewrite ascii_ignore_id by exact Hs.
  unfold re_sub_disallowed. rewrite list_lookup_fmap, Hi. reflexivity.
Qed.
End AsciiFixed.

Lemma ascii_ignore_app decomp x y :
  ascii_ignore decomp (x ++ y) = ascii_ignore decomp x ++ ascii_ignore decomp y.
Proof. unfold ascii_ignore. rewrite flat_map_app. apply List.filter_app. Qed.

Lemma ascii_filename_app decomp x y :
  ascii_filename decomp (x ++ y) = ascii_filename decomp x ++ ascii_filename decomp y.
Proof.
  unfold ascii_filename, re_sub_disallowed. rewrite ascii_ignore_app. apply fmap_app.
Qed.

Lemma ascii_filename_drop_nonascii decomp c :
  decomp c = [c] -> 128 <= c -> ascii_filename decomp [c] = [].
Proof.
  intros Hd Hc. unfold ascii_filename, ascii_ignore. simpl. rewrite Hd. simpl.
  replace (c <? 128) with false by (symmetry; apply Z.ltb_ge; lia).
  rewrite andb_false_r. reflexivity.
Qed.

Lemma ucd_decomp_ascii c : ascii_range c -> ucd_decomp c = [c].
Proof.
  unfold ascii_range, ucd_decomp. intros Hc.
  replace (c =? 255) with false by (symmetry; apply Z.eqb_neq; lia).
  cbn [find latin1_upper].
  repeat (rewrite (proj2 (Z.eqb_neq _ c)) by lia; cbn [orb]).
  reflexivity.
Qed.

Lemma ascii_filename_flat_map decomp s :
  ascii_filename decomp s
  = flat_map (fun c => flat_map (fun x => if (0 <=? x) && (x <? 128)
                                          then [if allowed_cp x then x else 95]
                                          else []) (decomp c)) s.
Proof.
  unfold ascii_filename, ascii_ignore, re_sub_disallowed.
  induction s as [|c s IH]; [reflexivity|].
  cbn [flat_map]. rewrite List.filter_app, map_app, IH. f_equal.
  clear IH. induction (decomp c) as [|x l IHl]; [reflexivity|].
  cbn [List.filter flat_map]. destruct ((0 <=? x) && (x <? 128)); simpl; now rewrite IHl.
Qed.

(** C4 (amended): the output of [ascii_filename] is drawn from
    [A-Za-z0-9._-]; every code point of the input is replaced by its NFKD
    decomposition, in which each ASCII character outside that class
    becomes '_', each allowed one is kept and each code point outside
    ASCII is dropped, not replaced (so, with the decomposition of the
    Unicode tables, U+00A0 and U+FF01 become '_' and 'é' becomes 'e').
    For an all-ASCII input this is position by position, and 'é'
    (decomposing to 'e' and U+0301) gives 'e'. *)
Theorem ascii_filename_charset_and_transliteration (decomp : Z -> list Z)
    (Hascii : forall c, ascii_range c -> decomp c = [c]) (s : pystr) :
  Forall (fun c => allowed_cp c = true) (ascii_filename decomp s)
  /\ ascii_filename decomp s
     = flat_map (fun c => flat_map (fun x => if (0 <=? x) && (x <? 128)
                                             then [if allowed_cp x then x else 95]
                                             else []) (decomp c)) s
  /\ (forall i c, Forall ascii_range s -> s !! i = Some c ->
        ascii_filename decomp s !! i = Some (if allowed_cp c then c else 95))
  /\ (forall x y c, decomp c = [c] -> 128 <= c ->
        ascii_filename decomp (x ++ [c] ++ y) = ascii_filename decomp (x ++ y))
  /\ (decomp 233 = [101; 769] -> forall x y,
        ascii_filename decomp (x ++ [233] ++ y)
        = ascii_filename decomp x ++ [101] ++ ascii_filename decomp y).
Proof.
  split; [apply ascii_filename_allowed|].
  split; [apply ascii_filename_flat_map|].
  split; [intros i c Hs Hi; now apply ascii_filename_ascii|].
  split.
  - intros x y c Hd Hc.
    rewrite !ascii_filename_app, (ascii_filename_drop_nonascii decomp c Hd Hc).
    reflexivity.
  - intros He x y. rewrite !ascii_filename_app. f_equal. f_equal.
    unfold ascii_filename, ascii_ignore. simpl. rewrite He. reflexivity.
Qed.

Lemma ascii_filename_charset_and_transliteration_witness :
  (forall c, ascii_range c -> ucd_decomp c = [c]) /\
  Forall (fun c => allowed_cp c = true) (ascii_filename ucd_decomp [233; 32; 120]) /\
  ascii_filename (fun c => if c =? 160 then [32] else if c =? 65281 then [33]
                           else ucd_decomp c) [120; 160; 233; 65281]
  = [120; 95; 101; 95].
Proof.
  split; [exact ucd_decomp_ascii|]. split.
  - exact (proj1 (ascii_filename_charset_and_transliteration ucd_decomp
                    ucd_decomp_ascii [233; 32; 120])).
  - assert (Hd : forall c, ascii_range c ->
      (fun c => if c =? 160 then [32] else if c =? 65281 then [33] else ucd_decomp c) c = [c]).
    { intros c Hc. unfold ascii_range in Hc. cbv beta.
      rewrite (proj2 (Z.eqb_neq c 160)) by lia.
      rewrite (proj2 (Z.eqb_neq c 65281)) by lia.
      exact (ucd_decomp_ascii c Hc). }
    rewrite (proj1 (proj2 (ascii_filename_charset_and_transliteration _ Hd
      [120; 160; 233; 65281]))).
    reflexivity.
Defined.

(** C4 as stated fails: a name with 'é' keeps an 'e' there and no '_',
    and a character with no ASCII decomposition (U+4E2D) disappears. *)
Lemma ascii_filename_e_acute_counterexample :
  ascii_filename ucd_decomp [233] = [101]
  /\ ~ In 95 (ascii_filename ucd_decomp [233])
  /\ ascii_filename ucd_decomp [20013] = [].
Proof. vm_compute. split; [reflexivity|]. split; [intros [H|H]; [discriminate|exact H]|reflexivity]. Qed.

(** C5 (amended): [ascii_filename] is a total function but yields the
    empty string when every character is stripped; the placeholder
    "file" is applied by [safe_stem], which never returns the empty
    string. *)
Theorem safe_stem_never_empty :
  (forall decomp filename, safe_stem decomp filename <> [])
  /\ (forall decomp filename,
        ascii_filename decomp (fst (splitext (basename filename))) = [] ->
        safe_stem decomp filename = s2l "file")
  /\ (forall decomp, ascii_filename decomp [] = []).
Proof.
  split; [|split].
  - intros decomp filename. unfold safe_stem.
    destruct (ascii_filename decomp _); discriminate.
  - intros decomp filename H. unfold safe_stem. rewrite H. reflexivity.
  - reflexivity.
Qed.

(** C5 as stated fails: a non-empty name made only of a character with
    no ASCII decomposition is sanitized to the empty string. *)
Lemma ascii_filename_empty_counterexample :
  ascii_filename ucd_decomp [20013] = [] /\ ascii_filename ucd_decomp [] = [].
Proof. split; reflexivity. Qed.

(** C10: [ascii_filename] is idempotent (for a decomposition that leaves
    ASCII characters alone, as Unicode's does). *)
Theorem ascii_filename_idempotent (decomp : Z -> list Z)
    (Hascii : forall c, ascii_range c -> decomp c = [c]) (s : pystr) :
  ascii_filename decomp (ascii_filename decomp s) = ascii_filename decomp s.
Proof.
  pose proof (ascii_filename_allowed decomp s) as Hall.
  unfold ascii_filename at 1.
  rewrite (ascii_ignore_id decomp Hascii).
  - apply re_sub_id. exact Hall.
  - eapply Forall_impl; [exact Hall|]. intros c Hc. apply allowed_cp_ascii, Hc.
Qed.

Lemma ascii_filename_idempotent_witness :
  (forall c, ascii_range c -> ucd_decomp c = [c]) /\
  ascii_filename ucd_decomp (ascii_filename ucd_decomp [233; 32; 47; 65])
  = ascii_filename ucd_decomp [233; 32; 47; 65].
Proof.
  split; [exact ucd_decomp_ascii|].
  apply (ascii_filename_idempotent ucd_decomp ucd_decomp_ascii).
Defined.

(** ** Persisting an upload *)

Lemma take_app_drop_length (l : list Z) (n : nat) :
  take n l ++ drop (length (take n l)) l = l.
Proof.
  revert n. induction l as [|x l IH]; intros [|n]; simpl; try reflexivity.
  f_equal. apply IH.
Qed.

Lemma set_fs_insert_id (w : World) p x :
  fs w !! p = Some x -> set_fs (<[p := x]> (fs w)) w = w.
Proof. intros H. destruct w as [f pd]. unfold set_fs. simpl in *. by rewrite insert_id. Qed.

Lemma copy_loop_spec (n : nat) (Hn : (0 < n)%nat) (file_path : pystr) :
  forall fuel up w b,
  fs w !! file_path = Some (File (Raw b)) ->
  (length (drop (up_pos up) (up_data up)) < fuel)%nat ->
  copy_loop n fuel up file_path w =
  (set_fs (<[file_path := File (Raw (b ++ drop (up_pos up) (up_data up)))]> (fs w)) w,
   inr (mkUpload (up_filename up) (up_data up)
          (up_pos up + length (drop (up_pos up) (up_data up)))%nat)).
Proof.
  induction fuel as [|fuel IH]; intros [fn data pos] w b Hb Hlen; simpl in *; [lia|].
  destruct (take n (drop pos data)) as [|c cs] eqn:Hchunk.
  - apply take_nil_inv in Hchunk as [Hn0|Hrest]; [lia|].
    rewrite Hrest, app_nil_r. simpl.
    unfold mret, M_ret. rewrite set_fs_insert_id by exact Hb. reflexivity.
  - unfold mbind, M_bind. unfold append_bytes at 1. rewrite Hb.
    set (chunk := c :: cs) in *.
    assert (Hsplit : chunk ++ drop (length chunk) (drop pos data) = drop pos data).
    { rewrite <- Hchunk. apply take_app_drop_length. }
    assert (Hlc : (0 < length chunk)%nat) by (simpl; lia).
    rewrite (IH (mkUpload fn data (pos + length chunk)) _ (b ++ chunk));
      cbn [up_pos up_data up_filename].
    + rewrite <- drop_drop.
      rewrite <- app_assoc, Hsplit. unfold set_fs. simpl.
      rewrite insert_insert_eq. do 3 f_equal.
      rewrite length_drop, !length_drop.
      pose proof (f_equal length Hsplit) as HL. rewrite length_app, length_drop in HL.
      rewrite length_drop in HL. unfold chunk in *; cbn [length] in *; lia.
    + apply lookup_insert_eq.
    + rewrite <- drop_drop, length_drop.
      pose proof (f_equal length Hsplit) as HL. rewrite length_app in HL.
      unfold chunk in *; cbn [length] in *; lia.
Qed.

Lemma CHUNK_SIZE_pos : (0 < CHUNK_SIZE)%nat.
Proof. unfold CHUNK_SIZE. apply Nat.mul_pos_pos; apply Nat.lt_0_succ. Qed.

(** The outcome of [save_upload_file] whenever the destination is not a
    directory: the new file holds the bytes from the cursor on, the
    cursor is back at 0. *)
Lemma save_upload_file_spec (up : UploadFile) (folder : pystr) (u : Z) (w : World) :
  fs w !! upload_path folder (up_filename up) u <> Some Dir ->
  save_upload_file up folder u w =
  (set_fs (<[upload_path folder (up_filename up) u :=
             File (Raw (drop (up_pos up) (up_data up)))]> (fs w)) w,
   inr (upload_path folder (up_filename up) u,
        mkUpload (up_filename up) (up_data up) 0)).
Proof.
  intros Hnd. unfold save_upload_file, mbind, M_bind.
  unfold write_file at 1.
  destruct (fs w !! upload_path folder (up_filename up) u) as [[]|] eqn:E;
    try congruence;
  (rewrite (copy_loop_spec CHUNK_SIZE CHUNK_SIZE_pos _ _ up _ []);
   [ unfold set_fs; simpl; rewrite insert_insert_eq; reflexivity
   | apply lookup_insert_eq
   | rewrite length_drop; lia ]).
Qed.

(** C3: persisting a fresh upload (cursor at 0) of any size creates a file
    byte-identical to the payload, read in [CHUNK_SIZE] (1 MiB) chunks
    written in order, and leaves the upload's cursor at 0 again. *)
Theorem save_upload_file_byte_identical (filename data : list Z) (folder : pystr)
    (u : Z) (w : World)
    (Hdest : fs w !! upload_path folder filename u <> Some Dir) :
  save_upload_file (mkUpload filename data 0) folder u w =
  (set_fs (<[upload_path folder filename u := File (Raw data)]> (fs w)) w,
   inr (upload_path folder filename u, mkUpload filename data 0)).
Proof. exact (save_upload_file_spec (mkUpload filename data 0) folder u w Hdest). Qed.

Lemma save_upload_file_byte_identical_witness :
  fs (mkWorld ∅ []) !! upload_path PDF_DOWNLOAD_FOLDER (s2l "a.pdf") 7 <> Some Dir /\
  save_upload_file (mkUpload (s2l "a.pdf") [37; 80; 68; 70] 0) PDF_DOWNLOAD_FOLDER 7
    (mkWorld ∅ []) =
  (set_fs (<[upload_path PDF_DOWNLOAD_FOLDER (s2l "a.pdf") 7 := File (Raw [37; 80; 68; 70])]> ∅)
     (mkWorld ∅ []),
   inr (upload_path PDF_DOWNLOAD_FOLDER (s2l "a.pdf") 7,
        mkUpload (s2l "a.pdf") [37; 80; 68; 70] 0)).
Proof.
  split; [simpl; rewrite lookup_empty; discriminate|].
  apply (save_upload_file_byte_identical (s2l "a.pdf") [37; 80; 68; 70]
           PDF_DOWNLOAD_FOLDER 7 (mkWorld ∅ [])).
  simpl. rewrite lookup_empty. discriminate.
Defined.

(** ** Deferred deletion *)

(** C2: when a pending deletion fires for a path that is already gone, the
    filesystem is left as it is, no exception is raised, and the entry
    leaves the pending list (nothing is retried). *)
Theorem fire_pending_missing_path_noop (i : nat) (p : pystr) (delay : nat) (w : World)
    (Hpend : pending w !! i = Some (p, delay))
    (Hgone : fs w !! p = None) :
  fire_pending i w =
  (mkWorld (fs w) (take i (pending w) ++ drop (S i) (pending w)), inr tt).
Proof.
  unfold fire_pending. rewrite Hpend.
  unfold delete_thread_body, mbind, M_bind, os_path_exists. simpl.
  rewrite Hgone. reflexivity.
Qed.

Lemma fire_pending_missing_path_noop_witness :
  let w := mkWorld ∅ [(s2l "pdf_uploads/x.pdf", 300%nat)] in
  pending w !! 0%nat = Some (s2l "pdf_uploads/x.pdf", 300%nat) /\
  fs w !! s2l "pdf_uploads/x.pdf" = None /\
  fire_pending 0 w = (mkWorld ∅ [], inr tt).
Proof.
  intros w. split; [reflexivity|]. split; [apply lookup_empty|].
  apply (fire_pending_missing_path_noop 0 (s2l "pdf_uploads/x.pdf") 300 w);
    [reflexivity | apply lookup_empty].
Defined.

(** ** Unique upload names *)

Lemma hex_digit_inj a b :
  0 <= a < 16 -> 0 <= b < 16 -> hex_digit a = hex_digit b -> a = b.
Proof.
  unfold hex_digit. intros Ha Hb.
  destruct (Z.ltb_spec a 10), (Z.ltb_spec b 10); lia.
Qed.

Lemma hex_digits_length k u : length (hex_digits k u) = k.
Proof.
  revert u. induction k as [|k IH]; intros u; [reflexivity|].
  simpl. rewrite length_app, IH. simpl. lia.
Qed.

Lemma hex_digits_inj k : forall u1 u2,
  hex_digits k u1 = hex_digits k u2 -> u1 mod 16 ^ Z.of_nat k = u2 mod 16 ^ Z.of_nat k.
Proof.
  induction k as [|k IH]; intros u1 u2 H.
  - simpl. rewrite !Z.mod_1_r. reflexivity.
  - simpl in H. apply app_inj_tail in H as [Hk Hd].
    apply IH in Hk.
    apply hex_digit_inj in Hd; [|apply Z.mod_pos_bound; lia|apply Z.mod_pos_bound; lia].
    rewrite Nat2Z.inj_succ, Z.pow_succ_r by lia.
    rewrite !Z.rem_mul_r by (try apply Z.pow_pos_nonneg; lia).
    rewrite Hk, Hd. reflexivity.
Qed.

Lemma uuid_hex_inj u1 u2 :
  0 <= u1 < 2 ^ 128 -> 0 <= u2 < 2 ^ 128 -> uuid_hex u1 = uuid_hex u2 -> u1 = u2.
Proof.
  intros H1 H2 H. apply hex_digits_inj in H.
  replace (16 ^ Z.of_nat 32) with (2 ^ 128) in H by reflexivity.
  rewrite !Z.mod_small in H by lia. exact H.
Qed.

Lemma hex_digits_lower k u : Forall lower_hex_cp (hex_digits k u).
Proof.
  revert u. induction k as [|k IH]; intros u; simpl; [constructor|].
  apply Forall_app. split; [apply IH|]. constructor; [|constructor].
  unfold lower_hex_cp, hex_digit. pose proof (Z.mod_pos_bound u 16 ltac:(lia)).
  destruct (Z.ltb_spec (u mod 16) 10); lia.
Qed.

(** C6 (amended): the stored name is the 32 lowercase hex digits of the
    128-bit identifier followed by the extension LOWERCASED ([ext.lower()]);
    two allocations with distinct identifiers never produce the same path
    under one root, whatever the two filenames. *)
Theorem upload_path_unique (root filename1 filename2 : pystr) (u1 u2 : Z)
    (H1 : 0 <= u1 < 2 ^ 128) (H2 : 0 <= u2 < 2 ^ 128) (Hne : u1 <> u2) :
  unique_upload_name filename1 u1 = uuid_hex u1 ++ py_lower (snd (splitext filename1))
  /\ length (uuid_hex u1) = 32%nat /\ Forall lower_hex_cp (uuid_hex u1)
  /\ upload_path root filename1 u1 <> upload_path root filename2 u2.
Proof.
  split; [|split; [apply hex_digits_length|split; [apply hex_digits_lower|]]].
  - unfold unique_upload_name. destruct (snd (splitext filename1)); reflexivity.
  - unfold upload_path, path_join, unique_upload_name. intros Heq.
    apply app_inv_head, app_inv_head in Heq.
    apply app_inj_1 in Heq as [Hh _]; [|unfold uuid_hex; rewrite !hex_digits_length; reflexivity].
    apply Hne, uuid_hex_inj; assumption.
Qed.

Lemma upload_path_unique_witness :
  (0 <= 1 < 2 ^ 128) /\ (0 <= 2 < 2 ^ 128) /\ 1 <> 2 /\
  upload_path PDF_DOWNLOAD_FOLDER (s2l "a.pdf") 1
  <> upload_path PDF_DOWNLOAD_FOLDER (s2l "a.pdf") 2.
Proof.
  split; [lia|split; [lia|split; [lia|]]].
  apply (upload_path_unique PDF_DOWNLOAD_FOLDER (s2l "a.pdf") (s2l "a.pdf") 1 2);
    lia.
Defined.

(** C6 as stated fails: the extension is not appended unchanged, ".PDF"
    is stored as ".pdf". *)
Lemma upload_name_lowercases_counterexample :
  unique_upload_name (s2l "report.PDF") 0 = uuid_hex 0 ++ s2l ".pdf"
  /\ unique_upload_name (s2l "report.PDF") 0 <> uuid_hex 0 ++ s2l ".PDF".
Proof.
  split; [reflexivity|]. vm_compute. intros H. discriminate H.
Qed.

(** ** Video downloads *)

Lemma py_lower_app x y : py_lower (x ++ y) = py_lower x ++ py_lower y.
Proof. apply map_app. Qed.

Lemma ends_with_app x suf : ends_with (x ++ suf) suf = true.
Proof. unfold ends_with. apply bool_decide_eq_true. exists x. reflexivity. Qed.

(** C9: the options [download_video] passes to yt_dlp select only formats
    whose extension is "mp4" ([bestvideo[ext=mp4]+bestaudio[ext=m4a]/
    best[ext=mp4]]) and merge into "mp4", so a reported name that ends in
    ".mp4" up to case ends in ".mp4" exactly ([Hext]).  Then the path
    [download_video] settles on ends with ".mp4": a name with another
    extension has it replaced by ".mp4" (the name only, no file is
    converted); the path is returned when a file exists there and
    [FileNotFoundError] is raised otherwise. *)
Theorem download_video_mp4 (ydl : pystr -> pystr -> M pystr)
    (url output_template : pystr) (w w1 : World) (filename0 : pystr)
    (Hfetch : ydl url output_template w = (w1, inr filename0))
    (Hext : ends_with (py_lower filename0) (s2l ".mp4") = true ->
            ends_with filename0 (s2l ".mp4") = true) :
  ends_with (mp4_filename filename0) (s2l ".mp4") = true
  /\ (ends_with (py_lower filename0) (s2l ".mp4") = false ->
      mp4_filename filename0 = fst (splitext filename0) ++ s2l ".mp4")
  /\ (fs w1 !! mp4_filename filename0 = None ->
      download_video ydl url output_template w
      = (w1, inl (FileNotFoundError (s2l "Failed to download video."))))
  /\ (is_Some (fs w1 !! mp4_filename filename0) ->
      download_video ydl url output_template w = (w1, inr (mp4_filename filename0))).
Proof.
  split; [|split; [|split]].
  - unfold mp4_filename. destruct (ends_with (py_lower filename0) _) eqn:E.
    + exact (Hext eq_refl).
    + apply ends_with_app.
  - intros E. unfold mp4_filename. rewrite E. reflexivity.
  - intros Hnone. unfold download_video, mbind, M_bind. rewrite Hfetch.
    unfold os_path_exists. rewrite Hnone. reflexivity.
  - intros [n Hn]. unfold download_video, mbind, M_bind. rewrite Hfetch.
    unfold os_path_exists. rewrite Hn. reflexivity.
Qed.

Lemma download_video_mp4_witness :
  webm_fetcher (s2l "https://v/x") (s2l "downloads/%(id)s.%(ext)s") (mkWorld ∅ [])
  = (set_fs (<[s2l "downloads/x.mp4" := File (Raw [0; 0; 0; 24])]> ∅) (mkWorld ∅ []),
     inr (s2l "downloads/x.webm"))
  /\ ends_with (mp4_filename (s2l "downloads/x.webm")) (s2l ".mp4") = true
  /\ download_video (fun _ _ w => (w, inr (s2l "downloads/a.mp4")))
       (s2l "https://v/a") (s2l "downloads/%(id)s.%(ext)s") (mkWorld ∅ [])
     = (mkWorld ∅ [], inl (FileNotFoundError (s2l "Failed to download video."))).
Proof.
  split; [reflexivity|]. split.
  - exact (proj1 (download_video_mp4 webm_fetcher (s2l "https://v/x")
             (s2l "downloads/%(id)s.%(ext)s") (mkWorld ∅ [])
             (set_fs (<[s2l "downloads/x.mp4" := File (Raw [0; 0; 0; 24])]> ∅) (mkWorld ∅ []))
             (s2l "downloads/x.webm") ltac:(reflexivity) ltac:(discriminate))).
  - exact (proj1 (proj2 (proj2 (download_video_mp4 (fun _ _ w => (w, inr (s2l "downloads/a.mp4")))
             (s2l "https://v/a") (s2l "downloads/%(id)s.%(ext)s") (mkWorld ∅ []) (mkWorld ∅ [])
             (s2l "downloads/a.mp4") ltac:(reflexivity) ltac:(intros _; reflexivity))))
             ltac:(apply lookup_empty)).
Defined.

(** ** The handlers' error paths *)

Lemma bind_inr {A B} (m : M A) (k : A -> M B) w w' a :
  m w = (w', inr a) -> (x ← m; k x) w = k a w'.
Proof. intros H. unfold mbind, M_bind. rewrite H. reflexivity. Qed.

Lemma bind_inl {A B} (m : M A) (k : A -> M B) w w' e :
  m w = (w', inl e) -> (x ← m; k x) w = (w', inl e).
Proof. intros H. unfold mbind, M_bind. rewrite H. reflexivity. Qed.

Lemma attempt_run {A} (m : M A) w w' r :
  m w = (w', r) -> attempt m w = (w', inr r).
Proof. intros H. unfold attempt. rewrite H. reflexivity. Qed.

Lemma remove_if_exists_spec p w :
  fs w !! p <> Some Dir -> remove_if_exists p w = (set_fs (delete p (fs w)) w, inr tt).
Proof.
  intros Hnd. unfold remove_if_exists, mbind, M_bind, os_path_exists.
  destruct (fs w !! p) as [[b|]|] eqn:E; simpl.
  - unfold os_remove. rewrite E. reflexivity.
  - congruence.
  - unfold mret, M_ret. destruct w as [f pd]. simpl in *. unfold set_fs. simpl.
    rewrite delete_id by exact E. reflexivity.
Qed.

Lemma save_upload_file_path up folder u w w1 p up' :
  save_upload_file up folder u w = (w1, inr (p, up')) ->
  p = upload_path folder (up_filename up) u.
Proof.
  unfold save_upload_file, mbind, M_bind.
  destruct (write_file _ _ w) as [wa [ea|[]]]; [discriminate|].
  destruct (copy_loop _ _ _ _ wa) as [wb [eb|ub]]; [discriminate|].
  unfold mret, M_ret. intros H. inversion H. reflexivity.
Qed.

Lemma rmtree_fs_lookup_Some p f k x : rmtree_fs p f !! k = Some x -> f !! k = Some x.
Proof.
  unfold rmtree_fs. destruct (f !! p) as [[]|]; try tauto.
  intros H. apply map_lookup_filter_Some in H. tauto.
Qed.

Lemma rmtree_fs_under p f k :
  f !! p = Some Dir -> is_under p k = true -> rmtree_fs p f !! k = None.
Proof.
  intros Hd Hk. unfold rmtree_fs. rewrite Hd.
  apply map_lookup_filter_None. right. intros x _ H. simpl in H. congruence.
Qed.

Lemma rmtree_fs_not_under p f k :
  is_under p k = false -> rmtree_fs p f !! k = f !! k.
Proof.
  intros Hk. unfold rmtree_fs. destruct (f !! p) as [[]|]; try reflexivity.
  destruct (f !! k) as [x|] eqn:E.
  - apply map_lookup_filter_Some. split; [exact E | exact Hk].
  - apply map_lookup_filter_None. left. exact E.
Qed.

Lemma head_ne_app (a b : Z) (x y : list Z) : a <> b -> a :: x <> b :: y.
Proof. intros H E. inversion E. contradiction. Qed.

Lemma is_under_head_ne (a b : Z) (x y : list Z) :
  a <> b -> is_under (a :: x) (b :: y) = false.
Proof.
  intros H. unfold is_under. apply orb_false_iff. split.
  - apply bool_decide_eq_false. intros E. injection E as E1 _. congruence.
  - apply bool_decide_eq_false. intros [k E]. simpl in E. injection E as E1 _. congruence.
Qed.

Ltac finish_error_path :=
  unfold mbind, M_bind, delete_file_later, mret, M_ret, set_fs; simpl; reflexivity.

Lemma pdf_to_excel_failure_run decomp convert file u1 u2 w w1 pdf_path up' w2 e :
  is_pdf_name (up_filename file) = true ->
  save_upload_file file PDF_DOWNLOAD_FOLDER u1 w = (w1, inr (pdf_path, up')) ->
  convert pdf_path (excel_output_path decomp (up_filename file) u2) w1 = (w2, inl e) ->
  fs w2 !! excel_output_path decomp (up_filename file) u2 <> Some Dir ->
  pdf_to_excel decomp convert file u1 u2 w =
  (mkWorld (delete (excel_output_path decomp (up_filename file) u2) (fs w2))
           (pending w2 ++ [(pdf_path, 300%nat)]),
   inr (JsonError (conversion_error_message e))).
Proof.
  intros Hv Hs Hc Hnd. unfold excel_output_path in *.
  unfold pdf_to_excel. rewrite Hv. cbn [negb].
  rewrite (bind_inr _ _ _ _ _ Hs). cbv beta iota zeta.
  rewrite (bind_inr _ _ _ _ _ (attempt_run _ _ _ _ Hc)). cbv beta iota.
  destruct e; cbv iota;
    (erewrite bind_inr by (apply remove_if_exists_spec; exact Hnd)); finish_error_path.
Qed.

Lemma pdf_to_word_failure_run decomp convert file u1 u2 w w1 pdf_path up' w2 e :
  is_pdf_name (up_filename file) = true ->
  save_upload_file file PDF_DOWNLOAD_FOLDER u1 w = (w1, inr (pdf_path, up')) ->
  convert pdf_path (word_output_path decomp (up_filename file) u2) w1 = (w2, inl e) ->
  fs w2 !! word_output_path decomp (up_filename file) u2 <> Some Dir ->
  pdf_to_word decomp convert file u1 u2 w =
  (mkWorld (delete (word_output_path decomp (up_filename file) u2) (fs w2))
           (pending w2 ++ [(pdf_path, 300%nat)]),
   inr (JsonError (failed_convert e))).
Proof.
  intros Hv Hs Hc Hnd. unfold word_output_path in *.
  unfold pdf_to_word. rewrite Hv. cbn [negb].
  rewrite (bind_inr _ _ _ _ _ Hs). cbv beta iota zeta.
  rewrite (bind_inr _ _ _ _ _ (attempt_run _ _ _ _ Hc)). cbv beta iota.
  (erewrite bind_inr by (apply remove_if_exists_spec; exact Hnd)); finish_error_path.
Qed.

Lemma pdf_to_image_failure_run decomp convert file u1 u2 w w1 pdf_path up' w1' w2 e :
  is_pdf_name (up_filename file) = true ->
  save_upload_file file PDF_DOWNLOAD_FOLDER u1 w = (w1, inr (pdf_path, up')) ->
  makedirs_exist_ok (image_session_folder decomp (up_filename file) u2) w1 = (w1', inr tt) ->
  convert pdf_path (image_session_folder decomp (up_filename file) u2)
    (image_zip_path decomp (up_filename file) u2) (safe_stem decomp (up_filename file)) w1'
  = (w2, inl e) ->
  fs w2 !! image_zip_path decomp (up_filename file) u2 <> Some Dir ->
  pdf_to_image decomp convert file u1 u2 w =
  (mkWorld (delete (image_zip_path decomp (up_filename file) u2)
              (rmtree_fs (image_session_folder decomp (up_filename file) u2) (fs w2)))
           (pending w2 ++ [(pdf_path, 300%nat)]),
   inr (JsonError (conversion_error_message e))).
Proof.
  intros Hv Hs Hm Hc Hnd.
  assert (Hnd' : rmtree_fs (image_session_folder decomp (up_filename file) u2) (fs w2)
                   !! image_zip_path decomp (up_filename file) u2 <> Some Dir)
    by (intros H; apply rmtree_fs_lookup_Some in H; contradiction).
  unfold image_session_folder, image_zip_path in *.
  unfold pdf_to_image. rewrite Hv. cbn [negb].
  rewrite (bind_inr _ _ _ _ _ Hs). cbv beta iota zeta.
  rewrite (bind_inr _ _ _ _ _ Hm). cbv beta.
  rewrite (bind_inr _ _ _ _ _ (attempt_run _ _ _ _ Hc)). cbv beta iota.
  destruct e; cbv iota;
    (rewrite (bind_inr _ _ _ _ tt (eq_refl : rmtree_ignore _ w2 = _)); cbv beta;
     erewrite bind_inr by (apply remove_if_exists_spec; exact Hnd')); finish_error_path.
Qed.

Lemma pdf_path_ne_excel x y : PDF_DOWNLOAD_FOLDER ++ x <> EXCEL_DOWNLOAD_FOLDER ++ y.
Proof.
  replace (PDF_DOWNLOAD_FOLDER ++ x) with (112 :: s2l "df_uploads" ++ x) by reflexivity.
  replace (EXCEL_DOWNLOAD_FOLDER ++ y) with (101 :: s2l "xcel_outputs" ++ y) by reflexivity.
  apply head_ne_app. discriminate.
Qed.

Lemma pdf_path_ne_word x y : PDF_DOWNLOAD_FOLDER ++ x <> WORD_DOWNLOAD_FOLDER ++ y.
Proof.
  replace (PDF_DOWNLOAD_FOLDER ++ x) with (112 :: s2l "df_uploads" ++ x) by reflexivity.
  replace (WORD_DOWNLOAD_FOLDER ++ y) with (119 :: s2l "ord_outputs" ++ y) by reflexivity.
  apply head_ne_app. discriminate.
Qed.

Lemma pdf_path_ne_image x y : PDF_DOWNLOAD_FOLDER ++ x <> IMAGE_DOWNLOAD_FOLDER ++ y.
Proof.
  replace (PDF_DOWNLOAD_FOLDER ++ x) with (112 :: s2l "df_uploads" ++ x) by reflexivity.
  replace (IMAGE_DOWNLOAD_FOLDER ++ y) with (105 :: s2l "mage_outputs" ++ y) by reflexivity.
  apply head_ne_app. discriminate.
Qed.

Lemma pdf_path_not_under_image x y :
  is_under (IMAGE_DOWNLOAD_FOLDER ++ x) (PDF_DOWNLOAD_FOLDER ++ y) = false.
Proof.
  replace (PDF_DOWNLOAD_FOLDER ++ y) with (112 :: s2l "df_uploads" ++ y) by reflexivity.
  replace (IMAGE_DOWNLOAD_FOLDER ++ x) with (105 :: s2l "mage_outputs" ++ x) by reflexivity.
  apply is_under_head_ne. discriminate.
Qed.

(** C1: for each PDF handler, once the upload is saved, a failed
    conversion (a [ValueError] or any other exception) leads to: the
    output artifact removed at once (and, for images, the session
    directory with everything below it), the input left on disk with its
    deletion scheduled after the standard 300 s, nothing else on disk
    touched, and a JSON body [{"error": msg}] whose message is the
    [ValueError]'s text or "Failed to convert PDF: " and the exception's
    text.  (The only assumption on the collaborator: it leaves no
    directory where the output file goes, and for images it keeps the
    session directory.) *)
Theorem pdf_handlers_conversion_failure_cleanup :
  (forall decomp convert file u1 u2 w w1 pdf_path up' w2 e,
    is_pdf_name (up_filename file) = true ->
    save_upload_file file PDF_DOWNLOAD_FOLDER u1 w = (w1, inr (pdf_path, up')) ->
    convert pdf_path (excel_output_path decomp (up_filename file) u2) w1 = (w2, inl e) ->
    fs w2 !! excel_output_path decomp (up_filename file) u2 <> Some Dir ->
    exists w',
      pdf_to_excel decomp convert file u1 u2 w = (w', inr (JsonError (conversion_error_message e)))
      /\ fs w' !! excel_output_path decomp (up_filename file) u2 = None
      /\ fs w' !! pdf_path = fs w2 !! pdf_path
      /\ (forall k, k <> excel_output_path decomp (up_filename file) u2 ->
            fs w' !! k = fs w2 !! k)
      /\ pending w' = pending w2 ++ [(pdf_path, 300%nat)])
  /\
  (forall decomp convert file u1 u2 w w1 pdf_path up' w2 e,
    is_pdf_name (up_filename file) = true ->
    save_upload_file file PDF_DOWNLOAD_FOLDER u1 w = (w1, inr (pdf_path, up')) ->
    convert pdf_path (word_output_path decomp (up_filename file) u2) w1 = (w2, inl e) ->
    fs w2 !! word_output_path decomp (up_filename file) u2 <> Some Dir ->
    exists w',
      pdf_to_word decomp convert file u1 u2 w = (w', inr (JsonError (failed_convert e)))
      /\ fs w' !! word_output_path decomp (up_filename file) u2 = None
      /\ fs w' !! pdf_path = fs w2 !! pdf_path
      /\ (forall k, k <> word_output_path decomp (up_filename file) u2 ->
            fs w' !! k = fs w2 !! k)
      /\ pending w' = pending w2 ++ [(pdf_path, 300%nat)])
  /\
  (forall decomp convert file u1 u2 w w1 pdf_path up' w1' w2 e,
    is_pdf_name (up_filename file) = true ->
    save_upload_file file PDF_DOWNLOAD_FOLDER u1 w = (w1, inr (pdf_path, up')) ->
    makedirs_exist_ok (image_session_folder decomp (up_filename file) u2) w1 = (w1', inr tt) ->
    convert pdf_path (image_session_folder decomp (up_filename file) u2)
      (image_zip_path decomp (up_filename file) u2) (safe_stem decomp (up_filename file)) w1'
    = (w2, inl e) ->
    fs w2 !! image_session_folder decomp (up_filename file) u2 = Some Dir ->
    fs w2 !! image_zip_path decomp (up_filename file) u2 <> Some Dir ->
    exists w',
      pdf_to_image decomp convert file u1 u2 w = (w', inr (JsonError (conversion_error_message e)))
      /\ fs w' !! image_zip_path decomp (up_filename file) u2 = None
      /\ (forall k, is_under (image_session_folder decomp (up_filename file) u2) k = true ->
            fs w' !! k = None)
      /\ fs w' !! pdf_path = fs w2 !! pdf_path
      /\ (forall k, k <> image_zip_path decomp (up_filename file) u2 ->
            is_under (image_session_folder decomp (up_filename file) u2) k = false ->
            fs w' !! k = fs w2 !! k)
      /\ pending w' = pending w2 ++ [(pdf_path, 300%nat)]).
Proof.
  split; [|split].
  - intros decomp convert file u1 u2 w w1 pdf_path up' w2 e Hv Hs Hc Hnd.
    pose proof (save_upload_file_path _ _ _ _ _ _ _ Hs) as Hp.
    eexists. split; [exact (pdf_to_excel_failure_run _ _ _ _ _ _ _ _ _ _ _ Hv Hs Hc Hnd)|].
    simpl. split; [apply lookup_delete_eq|]. split; [|split; [|reflexivity]].
    + apply lookup_delete_ne. subst pdf_path. apply not_eq_sym, pdf_path_ne_excel.
    + intros k Hk. apply lookup_delete_ne. congruence.
  - intros decomp convert file u1 u2 w w1 pdf_path up' w2 e Hv Hs Hc Hnd.
    pose proof (save_upload_file_path _ _ _ _ _ _ _ Hs) as Hp.
    eexists. split; [exact (pdf_to_word_failure_run _ _ _ _ _ _ _ _ _ _ _ Hv Hs Hc Hnd)|].
    simpl. split; [apply lookup_delete_eq|]. split; [|split; [|reflexivity]].
    + apply lookup_delete_ne. subst pdf_path. apply not_eq_sym, pdf_path_ne_word.
    + intros k Hk. apply lookup_delete_ne. congruence.
  - intros decomp convert file u1 u2 w w1 pdf_path up' w1' w2 e Hv Hs Hm Hc Hdir Hnd.
    pose proof (save_upload_file_path _ _ _ _ _ _ _ Hs) as Hp.
    eexists. split; [exact (pdf_to_image_failure_run _ _ _ _ _ _ _ _ _ _ _ _ Hv Hs Hm Hc Hnd)|].
    simpl. split; [apply lookup_delete_eq|]. split; [|split; [|split; [|reflexivity]]].
    + intros k Hk.
      destruct (decide (k = image_zip_path decomp (up_filename file) u2)) as [->|Hne].
      * apply lookup_delete_eq.
      * rewrite lookup_delete_ne by congruence. apply rmtree_fs_under; assumption.
    + subst pdf_path. rewrite lookup_delete_ne by (apply not_eq_sym, pdf_path_ne_image).
      apply rmtree_fs_not_under, pdf_path_not_under_image.
    + intros k Hk Hu. rewrite lookup_delete_ne by congruence.
      apply rmtree_fs_not_under, Hu.
Qed.

Lemma pdf_handlers_conversion_failure_cleanup_witness :
  exists w',
    pdf_to_excel ucd_decomp
      (fun _ _ w => (w, inl (ValueError (s2l "No tables found in PDF."))))
      (mkUpload (s2l "a.pdf") [1; 2] 0) 1 2 (mkWorld ∅ [])
    = (w', inr (JsonError (s2l "No tables found in PDF."))).
Proof.
  destruct (proj1 pdf_handlers_conversion_failure_cleanup ucd_decomp
     (fun _ _ w => (w, inl (ValueError (s2l "No tables found in PDF."))))
     (mkUpload (s2l "a.pdf") [1; 2] 0) 1 2 (mkWorld ∅ [])
     (set_fs (<[upload_path PDF_DOWNLOAD_FOLDER (s2l "a.pdf") 1 := File (Raw [1; 2])]> ∅)
        (mkWorld ∅ []))
     (upload_path PDF_DOWNLOAD_FOLDER (s2l "a.pdf") 1) (mkUpload (s2l "a.pdf") [1; 2] 0)
     (set_fs (<[upload_path PDF_DOWNLOAD_FOLDER (s2l "a.pdf") 1 := File (Raw [1; 2])]> ∅)
        (mkWorld ∅ []))
     (ValueError (s2l "No tables found in PDF.")))
    as [w' [Hrun _]].
  - vm_compute. reflexivity.
  - vm_compute. reflexivity.
  - reflexivity.
  - vm_compute. discriminate.
  - exists w'. exact Hrun.
Defined.

(** ** Domain errors of the converters *)

Lemma tables_of_none pages : Forall no_table pages -> tables_of pages = [].
Proof.
  induction 1 as [|t pages Ht _ IH]; [reflexivity|].
  destruct t as [[|r rs]|]; simpl in *; [exact IH|contradiction|exact IH].
Qed.

Lemma convert_pdf_tables_no_table plumber pdf_path excel_path w b pages :
  fs w !! pdf_path = Some (File b) -> plumber b = inr pages -> Forall no_table pages ->
  convert_pdf_tables_to_excel plumber pdf_path excel_path w
  = (w, inl (ValueError (s2l "No tables found in PDF."))).
Proof.
  intros Hf Hp Hn. unfold convert_pdf_tables_to_excel, mbind, M_bind, read_file.
  rewrite Hf. unfold lift_result. rewrite Hp. rewrite tables_of_none by exact Hn.
  reflexivity.
Qed.

Lemma create_images_zip_no_page page_count pdf_path session_folder zip_path base_name w b :
  fs w !! pdf_path = Some (File b) -> page_count b = inr 0%nat ->
  create_images_zip page_count pdf_path session_folder zip_path base_name w
  = (w, inl (ValueError (s2l "No pages found in PDF."))).
Proof.
  intros Hf Hp. unfold create_images_zip, mbind, M_bind, read_file.
  rewrite Hf. unfold lift_result. rewrite Hp. reflexivity.
Qed.

Lemma upload_path_pdf_ne_excel decomp filename u1 u2 :
  excel_output_path decomp filename u2 <> upload_path PDF_DOWNLOAD_FOLDER filename u1.
Proof. apply not_eq_sym, pdf_path_ne_excel. Qed.

Lemma upload_path_pdf_ne_image_zip decomp filename u1 u2 :
  image_zip_path decomp filename u2 <> upload_path PDF_DOWNLOAD_FOLDER filename u1.
Proof. apply not_eq_sym, pdf_path_ne_image. Qed.

Lemma upload_path_pdf_ne_session decomp filename u1 u2 :
  image_session_folder decomp filename u2 <> upload_path PDF_DOWNLOAD_FOLDER filename u1.
Proof. apply not_eq_sym, pdf_path_ne_image. Qed.

Lemma image_zip_ne_session decomp filename u :
  image_zip_path decomp filename u <> image_session_folder decomp filename u.
Proof.
  unfold image_zip_path, image_session_folder, path_join. intros H.
  apply (f_equal length) in H. rewrite !length_app in H. simpl in H. lia.
Qed.

(** C7: a PDF none of whose pages has an extractable table makes the
    table converter raise [ValueError("No tables found in PDF.")] without
    writing a workbook, a PDF with zero pages makes the image converter
    raise [ValueError("No pages found in PDF.")] without writing an
    archive, and in both cases the handler answers with that message as
    its error body. *)
Theorem empty_pdf_domain_errors :
  (forall plumber pdf_path excel_path w b pages,
     fs w !! pdf_path = Some (File b) -> plumber b = inr pages -> Forall no_table pages ->
     convert_pdf_tables_to_excel plumber pdf_path excel_path w
     = (w, inl (ValueError (s2l "No tables found in PDF."))))
  /\
  (forall page_count pdf_path session_folder zip_path base_name w b,
     fs w !! pdf_path = Some (File b) -> page_count b = inr 0%nat ->
     create_images_zip page_count pdf_path session_folder zip_path base_name w
     = (w, inl (ValueError (s2l "No pages found in PDF."))))
  /\
  (forall decomp plumber filename data u1 u2 w pages,
     is_pdf_name filename = true ->
     fs w !! upload_path PDF_DOWNLOAD_FOLDER filename u1 <> Some Dir ->
     fs w !! excel_output_path decomp filename u2 <> Some Dir ->
     plumber (Raw data) = inr pages -> Forall no_table pages ->
     exists w',
       pdf_to_excel decomp (convert_pdf_tables_to_excel plumber) (mkUpload filename data 0)
         u1 u2 w
       = (w', inr (JsonError (s2l "No tables found in PDF."))))
  /\
  (forall decomp page_count filename data u1 u2 w,
     is_pdf_name filename = true ->
     fs w !! upload_path PDF_DOWNLOAD_FOLDER filename u1 <> Some Dir ->
     fs w !! image_session_folder decomp filename u2 = None ->
     fs w !! image_zip_path decomp filename u2 <> Some Dir ->
     page_count (Raw data) = inr 0%nat ->
     exists w',
       pdf_to_image decomp (create_images_zip page_count) (mkUpload filename data 0) u1 u2 w
       = (w', inr (JsonError (s2l "No pages found in PDF.")))).
Proof.
  split; [exact convert_pdf_tables_no_table|].
  split; [exact create_images_zip_no_page|].
  split.
  - intros decomp plumber filename data u1 u2 w pages Hv Hpdf Hx Hp Hn.
    pose proof (save_upload_file_spec (mkUpload filename data 0) _ u1 w Hpdf) as Hs.
    cbn [up_filename up_data up_pos drop] in Hs.
    eexists. eapply (pdf_to_excel_failure_run decomp _ (mkUpload filename data 0)
                       u1 u2 w _ _ _ _ (ValueError (s2l "No tables found in PDF.")) Hv Hs).
    + apply convert_pdf_tables_no_table with (b := Raw data) (pages := pages);
        [apply lookup_insert_eq | exact Hp | exact Hn].
    + simpl. rewrite lookup_insert_ne by (apply not_eq_sym, upload_path_pdf_ne_excel).
      exact Hx.
  - intros decomp page_count filename data u1 u2 w Hv Hpdf Hsess Hzip Hp.
    pose proof (save_upload_file_spec (mkUpload filename data 0) _ u1 w Hpdf) as Hs.
    cbn [up_filename up_data up_pos drop] in Hs.
    set (w1 := set_fs (<[upload_path PDF_DOWNLOAD_FOLDER filename u1 := File (Raw data)]> (fs w)) w)
      in Hs.
    assert (Hm : makedirs_exist_ok (image_session_folder decomp filename u2) w1
                 = (set_fs (<[image_session_folder decomp filename u2 := Dir]> (fs w1)) w1, inr tt)).
    { unfold makedirs_exist_ok. subst w1. simpl.
      rewrite lookup_insert_ne by (apply not_eq_sym, upload_path_pdf_ne_session).
      rewrite Hsess. reflexivity. }
    eexists. eapply (pdf_to_image_failure_run decomp _ (mkUpload filename data 0)
                       u1 u2 w _ _ _ _ _ (ValueError (s2l "No pages found in PDF."))
                       Hv Hs Hm).
    + apply create_images_zip_no_page with (b := Raw data); [|exact Hp].
      subst w1. simpl.
      rewrite lookup_insert_ne by (apply upload_path_pdf_ne_session).
      apply lookup_insert_eq.
    + subst w1. simpl.
      rewrite lookup_insert_ne by (apply not_eq_sym, image_zip_ne_session).
      rewrite lookup_insert_ne by (apply not_eq_sym, upload_path_pdf_ne_image_zip).
      exact Hzip.
Qed.

(** ** The page archive *)

Lemma uint_digits_inj d1 d2 : uint_digits d1 = uint_digits d2 -> d1 = d2.
Proof.
  revert d2. induction d1; intros []; simpl; intros H;
    try discriminate; try reflexivity;
    injection H as H; f_equal; apply IHd1; exact H.
Qed.

Lemma py_str_nat_inj a b : py_str_nat a = py_str_nat b -> a = b.
Proof.
  unfold py_str_nat. intros H. apply uint_digits_inj in H.
  apply DecimalNat.Unsigned.to_uint_inj, H.
Qed.

Lemma uint_digits_digits d : Forall (fun c => 48 <= c <= 57) (uint_digits d).
Proof. induction d; simpl; constructor; try assumption; lia. Qed.

Lemma page_image_path_inj session base a b :
  page_image_path session base a = page_image_path session base b -> a = b.
Proof.
  unfold page_image_path, path_join, page_png_name. intros H.
  do 4 apply app_inv_head in H. apply app_inv_tail in H.
  apply py_str_nat_inj in H. injection H as H. exact H.
Qed.

Lemma rfind_aux_app c x y i b :
  rfind_aux c (x ++ y) i b = rfind_aux c y (i + Z.of_nat (length x)) (rfind_aux c x i b).
Proof.
  revert i b. induction x as [|a x IH]; intros i b; simpl.
  - f_equal. lia.
  - rewrite IH. f_equal. lia.
Qed.

Lemma rfind_aux_notin c y i b : Forall (fun x => x <> c) y -> rfind_aux c y i b = b.
Proof.
  intros Hy. revert i b. induction Hy as [|a y Ha _ IH]; intros i b; simpl; [reflexivity|].
  rewrite (proj2 (Z.eqb_neq a c) Ha). apply IH.
Qed.

Lemma basename_join dir name : Forall (fun x => x <> SEP) name ->
  basename (path_join dir name) = name.
Proof.
  intros Hn. unfold basename, rfind, path_join.
  rewrite app_assoc, rfind_aux_app, rfind_aux_notin by exact Hn.
  rewrite rfind_aux_app. simpl.
  replace (Z.to_nat (0 + Z.of_nat (length dir) + 1)) with (length (dir ++ [SEP]))
    by (rewrite length_app; simpl; lia).
  apply drop_app_length.
Qed.

Lemma allowed_not_sep c : allowed_cp c = true -> c <> SEP.
Proof.
  unfold allowed_cp, SEP. intros H ->. discriminate H.
Qed.

Lemma safe_stem_no_sep decomp filename :
  Forall (fun x => x <> SEP) (safe_stem decomp filename).
Proof.
  unfold safe_stem. pose proof (ascii_filename_allowed decomp
    (fst (splitext (basename filename)))) as Ha.
  destruct (ascii_filename decomp _) as [|c s] eqn:E.
  - repeat constructor; unfold SEP; discriminate.
  - eapply Forall_impl; [exact Ha|]. intros x Hx. apply allowed_not_sep, Hx.
Qed.

Lemma page_png_name_no_sep base k : Forall (fun x => x <> SEP) base ->
  Forall (fun x => x <> SEP) (page_png_name base k).
Proof.
  intros Hb. unfold page_png_name. apply Forall_app. split; [exact Hb|].
  apply Forall_app. split; [repeat constructor; unfold SEP; discriminate|].
  apply Forall_app. split; [|repeat constructor; unfold SEP; discriminate].
  eapply Forall_impl; [apply uint_digits_digits|]. intros x Hx. cbv beta in *. unfold SEP. lia.
Qed.

Lemma set_fs_set_fs f g w : set_fs f (set_fs g w) = set_fs f w.
Proof. reflexivity. Qed.

Lemma fs_set_fs f w : fs (set_fs f w) = f.
Proof. reflexivity. Qed.

Lemma write_pages_lookup_other b img f l k :
  (forall j, j ∈ l -> img j <> k) -> write_pages b img f l !! k = f !! k.
Proof.
  revert f. induction l as [|j l IH]; intros f Hl; simpl; [reflexivity|].
  rewrite IH.
  - apply lookup_insert_ne. apply Hl. left.
  - intros j' Hj'. apply Hl. right. exact Hj'.
Qed.

Lemma write_pages_lookup_in b img f l i :
  (forall x y, img x = img y -> x = y) -> i ∈ l ->
  write_pages b img f l !! img i = Some (File (PngImage b i)).
Proof.
  intros Hinj. revert f. induction l as [|j l IH]; intros f Hi; [inversion Hi|].
  simpl. destruct (decide (i ∈ l)) as [Hin|Hout]; [apply IH, Hin|].
  apply elem_of_cons in Hi as [->|Hi]; [|contradiction].
  rewrite write_pages_lookup_other; [apply lookup_insert_eq|].
  intros j' Hj' E. apply Hinj in E. subst. contradiction.
Qed.

Lemma write_pages_not_dir b img f l k :
  f !! k <> Some Dir -> write_pages b img f l !! k <> Some Dir.
Proof.
  revert f. induction l as [|j l IH]; intros f Hk; simpl; [exact Hk|].
  apply IH. destruct (decide (img j = k)) as [->|Hne].
  - rewrite lookup_insert_eq. discriminate.
  - rewrite lookup_insert_ne by exact Hne. exact Hk.
Qed.

Lemma save_page_png_run b session base i w :
  fs w !! page_image_path session base i <> Some Dir ->
  save_page_png b session base i w =
  (set_fs (<[page_image_path session base i := File (PngImage b i)]> (fs w)) w,
   inr (page_image_path session base i)).
Proof.
  intros Hnd. unfold save_page_png, mbind, M_bind, write_file.
  fold (page_image_path session base i).
  destruct (fs w !! page_image_path session base i) as [[]|] eqn:E;
    [reflexivity | contradiction | reflexivity].
Qed.

Lemma save_pages_run b session base l w :
  (forall i, fs w !! page_image_path session base i <> Some Dir) ->
  mapM (save_page_png b session base) l w =
  (set_fs (write_pages b (page_image_path session base) (fs w) l) w,
   inr (map (page_image_path session base) l)).
Proof.
  revert w. induction l as [|i l IH]; intros w Hnd; [destruct w; reflexivity|].
  simpl mapM.
  rewrite (bind_inr _ _ _ _ _ (save_page_png_run b session base i w (Hnd i))).
  set (w1 := set_fs (<[page_image_path session base i := File (PngImage b i)]> (fs w)) w).
  assert (Hnd1 : forall j, fs w1 !! page_image_path session base j <> Some Dir).
  { intros j. simpl. destruct (decide (page_image_path session base i
                                       = page_image_path session base j)) as [E|Hne].
    - rewrite E, lookup_insert_eq. discriminate.
    - rewrite lookup_insert_ne by exact Hne. apply Hnd. }
  rewrite (bind_inr _ _ _ _ _ (IH w1 Hnd1)).
  reflexivity.
Qed.

Lemma zip_write_image_run zip p c es f w :
  f !! p = Some (File c) -> f !! zip = Some (File (Archive es)) ->
  zip_write_image zip p (set_fs f w) =
  (set_fs (<[zip := File (Archive (es ++ [(basename p, c)]))]> f) w, inr tt).
Proof.
  intros Hp Hz. unfold zip_write_image, mbind, M_bind, read_file, zip_append.
  simpl. rewrite Hp. simpl. rewrite Hz. reflexivity.
Qed.

Lemma zip_images_run b img zip l es f w :
  (forall i, i ∈ l -> f !! img i = Some (File (PngImage b i))) ->
  (forall i, img i <> zip) ->
  f !! zip = Some (File (Archive es)) ->
  mapM (zip_write_image zip) (map img l) (set_fs f w) =
  (set_fs (<[zip := File (Archive (es ++ map (fun i => (basename (img i), PngImage b i)) l))]> f) w,
   inr (map (fun _ => tt) l)).
Proof.
  revert es f w. induction l as [|i l IH]; intros es f w Himg Hne Hz; simpl.
  - rewrite app_nil_r, insert_id by exact Hz. reflexivity.
  - rewrite (bind_inr _ _ _ _ _ (zip_write_image_run zip (img i) _ es f w
                                   (Himg i ltac:(left)) Hz)).
    set (f1 := <[zip := File (Archive (es ++ [(basename (img i), PngImage b i)]))]> f).
    assert (Himg1 : forall j, j ∈ l -> f1 !! img j = Some (File (PngImage b j))).
    { intros j Hj. unfold f1. rewrite lookup_insert_ne by (apply not_eq_sym, Hne).
      apply Himg. right. exact Hj. }
    rewrite (bind_inr _ _ _ _ _ (IH _ f1 w Himg1 Hne (lookup_insert_eq _ _ _))).
    unfold mret, M_ret, f1. rewrite insert_insert_eq, <- app_assoc. reflexivity.
Qed.

Lemma basename_page_image_path session base i :
  Forall (fun x => x <> SEP) base ->
  basename (page_image_path session base i) = page_png_name base (S i).
Proof.
  intros Hb. unfold page_image_path. apply basename_join, page_png_name_no_sep, Hb.
Qed.

Lemma create_images_zip_run page_count pdf_path session zip base w b n :
  fs w !! pdf_path = Some (File b) -> page_count b = inr n -> n <> 0%nat ->
  Forall (fun x => x <> SEP) base ->
  (forall i, fs w !! page_image_path session base i <> Some Dir) ->
  (forall i, page_image_path session base i <> zip) ->
  fs w !! zip <> Some Dir ->
  create_images_zip page_count pdf_path session zip base w =
  (set_fs (<[zip := File (Archive (map (fun i => (page_png_name base (S i), PngImage b i))
                                       (seq 0 n)))]>
             (write_pages b (page_image_path session base) (fs w) (seq 0 n))) w,
   inr tt).
Proof.
  intros Hf Hp Hn Hb Hnd Hne Hz.
  set (W := write_pages b (page_image_path session base) (fs w) (seq 0 n)).
  assert (HzW : W !! zip <> Some Dir) by (apply write_pages_not_dir, Hz).
  assert (Hw : write_file zip (Archive []) (set_fs W w)
               = (set_fs (<[zip := File (Archive [])]> W) w, inr tt)).
  { unfold write_file. simpl. destruct (W !! zip) as [[]|] eqn:E;
      [reflexivity | contradiction | reflexivity]. }
  assert (Himg : forall i, i ∈ seq 0 n ->
            (<[zip := File (Archive [])]> W) !! page_image_path session base i
            = Some (File (PngImage b i))).
  { intros i Hi. rewrite lookup_insert_ne by (apply not_eq_sym, Hne).
    apply write_pages_lookup_in; [apply page_image_path_inj | exact Hi]. }
  unfold create_images_zip.
  rewrite (bind_inr _ _ w w b) by (unfold read_file; rewrite Hf; reflexivity).
  rewrite (bind_inr _ _ w w n) by (unfold lift_result; rewrite Hp; reflexivity).
  rewrite (proj2 (Nat.eqb_neq n 0) Hn).
  rewrite (bind_inr _ _ _ _ _ (save_pages_run b session base (seq 0 n) w Hnd)).
  rewrite (bind_inr _ _ _ _ _ Hw).
  rewrite (bind_inr _ _ _ _ _ (zip_images_run b _ zip _ [] _ w Himg Hne (lookup_insert_eq _ _ _))).
  unfold mret, M_ret. rewrite insert_insert_eq. simpl app.
  rewrite (map_ext _ (fun i => (page_png_name base (S i), PngImage b i))).
  - reflexivity.
  - intros i. rewrite basename_page_image_path by exact Hb. reflexivity.
Qed.

Lemma session_contains_page session base i :
  is_under session (page_image_path session base i) = true.
Proof.
  unfold is_under, page_image_path, path_join. apply orb_true_iff. right.
  apply bool_decide_eq_true. exists (page_png_name base (S i)).
  rewrite <- app_assoc. reflexivity.
Qed.

Lemma zip_not_under_session decomp filename u :
  is_under (image_session_folder decomp filename u) (image_zip_path decomp filename u) = false.
Proof.
  unfold is_under. apply orb_false_iff. split.
  - apply bool_decide_eq_false, image_zip_ne_session.
  - apply bool_decide_eq_false. intros [k E].
    unfold image_zip_path, image_session_folder, path_join in E.
    rewrite <- !app_assoc in E. do 5 apply app_inv_head in E.
    unfold SEP in E. simpl in E. discriminate.
Qed.

Lemma page_ne_zip decomp filename u i :
  page_image_path (image_session_folder decomp filename u) (safe_stem decomp filename) i
  <> image_zip_path decomp filename u.
Proof.
  intros E. pose proof (session_contains_page (image_session_folder decomp filename u)
                          (safe_stem decomp filename) i) as H.
  rewrite E, zip_not_under_session in H. discriminate.
Qed.

Lemma page_ne_pdf decomp filename u1 u2 base i :
  page_image_path (image_session_folder decomp filename u2) base i
  <> upload_path PDF_DOWNLOAD_FOLDER filename u1.
Proof.
  unfold page_image_path, image_session_folder, upload_path, path_join.
  rewrite <- !app_assoc. apply not_eq_sym, pdf_path_ne_image.
Qed.

Lemma page_ne_session session base i : page_image_path session base i <> session.
Proof.
  unfold page_image_path, path_join. intros E.
  apply (f_equal length) in E. rewrite !length_app in E. simpl in E. lia.
Qed.

Lemma is_under_refl p : is_under p p = true.
Proof. unfold is_under. apply orb_true_iff. left. apply bool_decide_eq_true. reflexivity. Qed.

Lemma pdf_to_image_success_run decomp convert file u1 u2 w w1 pdf_path up' w1' w2 :
  is_pdf_name (up_filename file) = true ->
  save_upload_file file PDF_DOWNLOAD_FOLDER u1 w = (w1, inr (pdf_path, up')) ->
  makedirs_exist_ok (image_session_folder decomp (up_filename file) u2) w1 = (w1', inr tt) ->
  convert pdf_path (image_session_folder decomp (up_filename file) u2)
    (image_zip_path decomp (up_filename file) u2) (safe_stem decomp (up_filename file)) w1'
  = (w2, inr tt) ->
  pdf_to_image decomp convert file u1 u2 w =
  (mkWorld (rmtree_fs (image_session_folder decomp (up_filename file) u2) (fs w2))
           ((pending w2 ++ [(pdf_path, 300%nat)])
              ++ [(image_zip_path decomp (up_filename file) u2, 600%nat)]),
   inr (file_response decomp (image_zip_path decomp (up_filename file) u2))).
Proof.
  intros Hv Hs Hm Hc.
  unfold image_session_folder, image_zip_path in *.
  unfold pdf_to_image. rewrite Hv. cbn [negb].
  rewrite (bind_inr _ _ _ _ _ Hs). cbv beta iota zeta.
  rewrite (bind_inr _ _ _ _ _ Hm). cbv beta.
  rewrite (bind_inr _ _ _ _ _ (attempt_run _ _ _ _ Hc)). cbv beta iota.
  finish_error_path.
Qed.

Lemma pdf_to_image_pages_run decomp page_count filename data u1 u2 w N :
  is_pdf_name filename = true ->
  fs w !! upload_path PDF_DOWNLOAD_FOLDER filename u1 <> Some Dir ->
  (forall k, is_under (image_session_folder decomp filename u2) k = true -> fs w !! k = None) ->
  fs w !! image_zip_path decomp filename u2 <> Some Dir ->
  page_count (Raw data) = inr N -> N <> 0%nat ->
  exists w',
    pdf_to_image decomp (create_images_zip page_count) (mkUpload filename data 0) u1 u2 w
    = (w', inr (file_response decomp (image_zip_path decomp filename u2))) /\
    fs w' !! image_zip_path decomp filename u2
    = Some (File (Archive (map (fun i => (page_png_name (safe_stem decomp filename) (S i),
                                          PngImage (Raw data) i)) (seq 0 N)))).
Proof.
  intros Hv Hpdf Hsess Hz Hp HN.
  pose proof (save_upload_file_spec (mkUpload filename data 0) PDF_DOWNLOAD_FOLDER u1 w Hpdf)
    as Hs. cbn [up_filename up_data up_pos drop] in Hs.
  set (pdf := upload_path PDF_DOWNLOAD_FOLDER filename u1) in *.
  set (session := image_session_folder decomp filename u2) in *.
  set (zip := image_zip_path decomp filename u2) in *.
  set (base := safe_stem decomp filename).
  set (w1 := set_fs (<[pdf := File (Raw data)]> (fs w)) w) in Hs.
  assert (Hses_pdf : session <> pdf) by apply upload_path_pdf_ne_session.
  assert (Hzip_pdf : zip <> pdf) by apply upload_path_pdf_ne_image_zip.
  assert (Hzip_ses : zip <> session) by apply image_zip_ne_session.
  assert (Hm : makedirs_exist_ok session w1 = (set_fs (<[session := Dir]> (fs w1)) w1, inr tt)).
  { unfold makedirs_exist_ok. simpl. rewrite lookup_insert_ne by (apply not_eq_sym, Hses_pdf).
    rewrite (Hsess session (is_under_refl session)). reflexivity. }
  set (w1' := set_fs (<[session := Dir]> (fs w1)) w1) in Hm.
  set (entries := map (fun i => (page_png_name base (S i), PngImage (Raw data) i)) (seq 0 N)).
  assert (Hc : create_images_zip page_count pdf session zip base w1' =
               (set_fs (<[zip := File (Archive entries)]>
                          (write_pages (Raw data) (page_image_path session base) (fs w1')
                             (seq 0 N))) w1', inr tt)).
  { apply create_images_zip_run.
    - simpl. rewrite lookup_insert_ne by exact Hses_pdf. apply lookup_insert_eq.
    - exact Hp.
    - exact HN.
    - apply safe_stem_no_sep.
    - intros i. simpl.
      rewrite lookup_insert_ne by (apply not_eq_sym, page_ne_session).
      rewrite lookup_insert_ne by (apply not_eq_sym, page_ne_pdf).
      rewrite (Hsess _ (session_contains_page session base i)). discriminate.
    - intros i. apply page_ne_zip.
    - simpl. rewrite lookup_insert_ne by (apply not_eq_sym, Hzip_ses).
      rewrite lookup_insert_ne by (apply not_eq_sym, Hzip_pdf). exact Hz. }
  eexists. split.
  - exact (pdf_to_image_success_run decomp (create_images_zip page_count)
             (mkUpload filename data 0) u1 u2 w _ _ _ _ _ Hv Hs Hm Hc).
  - simpl. fold zip session. rewrite rmtree_fs_not_under by apply zip_not_under_session.
    apply lookup_insert_eq.
Qed.

(** C8: for a PDF upload whose page count is N >= 1, the image endpoint
    answers with a file response for the archive, and that archive holds
    exactly N entries; entry i (from 0) is named
    [<stem>_page_<i+1>.png], with [<stem>] the sanitized stem of the
    uploaded filename, and holds the PNG rendering of page i.  The
    destination paths are assumed free: the stored PDF and the archive
    are not directories, nothing exists at or below the session folder. *)
Theorem images_zip_page_entries decomp page_count filename data u1 u2 w N :
  is_pdf_name filename = true ->
  fs w !! upload_path PDF_DOWNLOAD_FOLDER filename u1 <> Some Dir ->
  (forall k, is_under (image_session_folder decomp filename u2) k = true -> fs w !! k = None) ->
  fs w !! image_zip_path decomp filename u2 <> Some Dir ->
  page_count (Raw data) = inr N -> (1 <= N)%nat ->
  exists w' entries,
    pdf_to_image decomp (create_images_zip page_count) (mkUpload filename data 0) u1 u2 w
    = (w', inr (file_response decomp (image_zip_path decomp filename u2))) /\
    fs w' !! image_zip_path decomp filename u2 = Some (File (Archive entries)) /\
    length entries = N /\
    forall i, (i < N)%nat ->
      entries !! i = Some (safe_stem decomp filename ++ s2l "_page_" ++ py_str_nat (S i)
                             ++ s2l ".png",
                           PngImage (Raw data) i).
Proof.
  intros Hv Hpdf Hsess Hz Hp HN.
  destruct (pdf_to_image_pages_run decomp page_count filename data u1 u2 w N
              Hv Hpdf Hsess Hz Hp ltac:(lia)) as [w' [Hrun Hzip]].
  exists w', (map (fun i => (page_png_name (safe_stem decomp filename) (S i),
                             PngImage (Raw data) i)) (seq 0 N)).
  split; [exact Hrun|]. split; [exact Hzip|]. split.
  - rewrite length_map, length_seq. reflexivity.
  - intros i Hi. rewrite list_lookup_fmap, lookup_seq_lt by exact Hi. reflexivity.
Qed.

Lemma images_zip_page_entries_witness :
  exists w' entries,
    pdf_to_image ucd_decomp (create_images_zip (fun _ => inr 3%nat))
      (mkUpload (s2l "report.pdf") [37; 80; 68; 70] 0) 1 2 (mkWorld ∅ [])
    = (w', inr (file_response ucd_decomp (image_zip_path ucd_decomp (s2l "report.pdf") 2))) /\
    fs w' !! image_zip_path ucd_decomp (s2l "report.pdf") 2 = Some (File (Archive entries)) /\
    length entries = 3%nat /\
    forall i, (i < 3)%nat ->
      entries !! i = Some (safe_stem ucd_decomp (s2l "report.pdf") ++ s2l "_page_"
                             ++ py_str_nat (S i) ++ s2l ".png",
                           PngImage (Raw [37; 80; 68; 70]) i).
Proof.
  apply (images_zip_page_entries ucd_decomp (fun _ => inr 3%nat) (s2l "report.pdf")
           [37; 80; 68; 70] 1 2 (mkWorld ∅ []) 3).
  - reflexivity.
  - simpl. rewrite lookup_empty. discriminate.
  - intros k _. apply lookup_empty.
  - simpl. rewrite lookup_empty. discriminate.
  - reflexivity.
  - lia.
Defined.

Lemma empty_pdf_domain_errors_witness :
  (exists w',
     pdf_to_excel ucd_decomp (convert_pdf_tables_to_excel (fun _ => inr [None; Some []]))
       (mkUpload (s2l "scan.pdf") [37; 80; 68; 70] 0) 1 2 (mkWorld ∅ [])
     = (w', inr (JsonError (s2l "No tables found in PDF.")))) /\
  (exists w',
     pdf_to_image ucd_decomp (create_images_zip (fun _ => inr 0%nat))
       (mkUpload (s2l "blank.pdf") [37; 80; 68; 70] 0) 1 2 (mkWorld ∅ [])
     = (w', inr (JsonError (s2l "No pages found in PDF.")))).
Proof.
  split.
  - apply (proj1 (proj2 (proj2 empty_pdf_domain_errors)) ucd_decomp
             (fun _ => inr [None; Some []]) (s2l "scan.pdf") [37; 80; 68; 70] 1 2
             (mkWorld ∅ []) [None; Some []]).
    + reflexivity.
    + simpl. rewrite lookup_empty. discriminate.
    + simpl. rewrite lookup_empty. discriminate.
    + reflexivity.
    + repeat constructor.
  - apply (proj2 (proj2 (proj2 empty_pdf_domain_errors)) ucd_decomp
             (fun _ => inr 0%nat) (s2l "blank.pdf") [37; 80; 68; 70] 1 2 (mkWorld ∅ [])).
    + reflexivity.
    + simpl. rewrite lookup_empty. discriminate.
    + apply lookup_empty.
    + simpl. rewrite lookup_empty. discriminate.
    + reflexivity.
Defined.

(* ================================================================== *)
(** * Further properties of the handlers and helpers *)

(** ** Uploads that are not PDFs *)

(** A filename whose lowercased form does not end in ".pdf" is answered
    by each PDF handler with the error "Please upload a PDF file.", before
    anything is saved, converted or scheduled: the state is unchanged. *)
Theorem non_pdf_upload_rejected decomp cx cw ci file u1 u2 w :
  is_pdf_name (up_filename file) = false ->
  pdf_to_excel decomp cx file u1 u2 w
  = (w, inr (JsonError (s2l "Please upload a PDF file.")))
  /\ pdf_to_word decomp cw file u1 u2 w
  = (w, inr (JsonError (s2l "Please upload a PDF file.")))
  /\ pdf_to_image decomp ci file u1 u2 w
  = (w, inr (JsonError (s2l "Please upload a PDF file."))).
Proof.
  intros H. unfold pdf_to_excel, pdf_to_word, pdf_to_image. rewrite H.
  refine (conj _ (conj _ _)); reflexivity.
Qed.

Lemma non_pdf_upload_rejected_witness :
  pdf_to_excel ucd_decomp (convert_pdf_tables_to_excel (fun _ => inr []))
    (mkUpload (s2l "scan.PDF.txt") [1; 2] 0) 1 2 (mkWorld ∅ [])
  = (mkWorld ∅ [], inr (JsonError (s2l "Please upload a PDF file."))).
Proof.
  exact (proj1 (non_pdf_upload_rejected ucd_decomp
                  (convert_pdf_tables_to_excel (fun _ => inr []))
                  (fun _ _ => mret tt) (create_images_zip (fun _ => inr 1%nat))
                  (mkUpload (s2l "scan.PDF.txt") [1; 2] 0) 1 2 (mkWorld ∅ [])
                  ltac:(reflexivity))).
Defined.

(** ** Successful conversions *)

(** When the Excel conversion succeeds, the handler leaves the filesystem
    as the conversion left it, schedules the deletion of the uploaded PDF
    after 300 s and of the workbook after 600 s (in that order), and
    answers with a file response for the workbook. *)
Theorem pdf_to_excel_success decomp convert file u1 u2 w w1 pdf_path up' w2 :
  is_pdf_name (up_filename file) = true ->
  save_upload_file file PDF_DOWNLOAD_FOLDER u1 w = (w1, inr (pdf_path, up')) ->
  convert pdf_path (excel_output_path decomp (up_filename file) u2) w1 = (w2, inr tt) ->
  pdf_to_excel decomp convert file u1 u2 w =
  (mkWorld (fs w2) (pending w2 ++ [(pdf_path, 300%nat);
                                   (excel_output_path decomp (up_filename file) u2, 600%nat)]),
   inr (file_response decomp (excel_output_path decomp (up_filename file) u2))).
Proof.
  intros Hv Hs Hc. unfold excel_output_path in *.
  unfold pdf_to_excel. rewrite Hv. cbn [negb].
  rewrite (bind_inr _ _ _ _ _ Hs). cbv beta iota zeta.
  rewrite (bind_inr _ _ _ _ _ (attempt_run _ _ _ _ Hc)). cbv beta iota.
  unfold mbind, M_bind, delete_file_later, mret, M_ret. simpl.
  rewrite <- app_assoc. reflexivity.
Qed.

Lemma pdf_to_excel_success_witness :
  pdf_to_excel ucd_decomp (fun _ _ w => (w, inr tt)) (mkUpload (s2l "a.pdf") [1; 2] 0) 1 2
    (mkWorld ∅ [])
  = (mkWorld (<[upload_path PDF_DOWNLOAD_FOLDER (s2l "a.pdf") 1 := File (Raw [1; 2])]> ∅)
       [(upload_path PDF_DOWNLOAD_FOLDER (s2l "a.pdf") 1, 300%nat);
        (excel_output_path ucd_decomp (s2l "a.pdf") 2, 600%nat)],
     inr (file_response ucd_decomp (excel_output_path ucd_decomp (s2l "a.pdf") 2))).
Proof.
  exact (pdf_to_excel_success ucd_decomp (fun _ _ w => (w, inr tt))
           (mkUpload (s2l "a.pdf") [1; 2] 0) 1 2 (mkWorld ∅ [])
           (set_fs (<[upload_path PDF_DOWNLOAD_FOLDER (s2l "a.pdf") 1 := File (Raw [1; 2])]> ∅)
              (mkWorld ∅ []))
           (upload_path PDF_DOWNLOAD_FOLDER (s2l "a.pdf") 1) (mkUpload (s2l "a.pdf") [1; 2] 0)
           (set_fs (<[upload_path PDF_DOWNLOAD_FOLDER (s2l "a.pdf") 1 := File (Raw [1; 2])]> ∅)
              (mkWorld ∅ []))
           ltac:(reflexivity) ltac:(vm_compute; reflexivity) ltac:(reflexivity)).
Defined.

(** When the Word conversion succeeds, the handler leaves the filesystem
    as the conversion left it, schedules the deletion of the uploaded PDF
    after 300 s and of the document after 600 s, and answers with a file
    response for the document. *)
Theorem pdf_to_word_success decomp convert file u1 u2 w w1 pdf_path up' w2 :
  is_pdf_name (up_filename file) = true ->
  save_upload_file file PDF_DOWNLOAD_FOLDER u1 w = (w1, inr (pdf_path, up')) ->
  convert pdf_path (word_output_path decomp (up_filename file) u2) w1 = (w2, inr tt) ->
  pdf_to_word decomp convert file u1 u2 w =
  (mkWorld (fs w2) (pending w2 ++ [(pdf_path, 300%nat);
                                   (word_output_path decomp (up_filename file) u2, 600%nat)]),
   inr (file_response decomp (word_output_path decomp (up_filename file) u2))).
Proof.
  intros Hv Hs Hc. unfold word_output_path in *.
  unfold pdf_to_word. rewrite Hv. cbn [negb].
  rewrite (bind_inr _ _ _ _ _ Hs). cbv beta iota zeta.
  rewrite (bind_inr _ _ _ _ _ (attempt_run _ _ _ _ Hc)). cbv beta iota.
  unfold mbind, M_bind, delete_file_later, mret, M_ret. simpl.
  rewrite <- app_assoc. reflexivity.
Qed.

Lemma pdf_to_word_success_witness :
  pdf_to_word ucd_decomp (fun _ _ w => (w, inr tt)) (mkUpload (s2l "a.pdf") [1; 2] 0) 1 2
    (mkWorld ∅ [])
  = (mkWorld (<[upload_path PDF_DOWNLOAD_FOLDER (s2l "a.pdf") 1 := File (Raw [1; 2])]> ∅)
       [(upload_path PDF_DOWNLOAD_FOLDER (s2l "a.pdf") 1, 300%nat);
        (word_output_path ucd_decomp (s2l "a.pdf") 2, 600%nat)],
     inr (file_response ucd_decomp (word_output_path ucd_decomp (s2l "a.pdf") 2))).
Proof.
  exact (pdf_to_word_success ucd_decomp (fun _ _ w => (w, inr tt))
           (mkUpload (s2l "a.pdf") [1; 2] 0) 1 2 (mkWorld ∅ [])
           (set_fs (<[upload_path PDF_DOWNLOAD_FOLDER (s2l "a.pdf") 1 := File (Raw [1; 2])]> ∅)
              (mkWorld ∅ []))
           (upload_path PDF_DOWNLOAD_FOLDER (s2l "a.pdf") 1) (mkUpload (s2l "a.pdf") [1; 2] 0)
           (set_fs (<[upload_path PDF_DOWNLOAD_FOLDER (s2l "a.pdf") 1 := File (Raw [1; 2])]> ∅)
              (mkWorld ∅ []))
           ltac:(reflexivity) ltac:(vm_compute; reflexivity) ltac:(reflexivity)).
Defined.

(** ** Video endpoints *)

(** The outcome of [GET /youtube/download] from what the downloader does:
    if it raises [e], the answer is "Failed to download video: " followed
    by [str(e)]; if it reports [f0] and a file exists at [f0] with its
    extension normalized to ".mp4", that file is scheduled for deletion
    after 300 s and served; otherwise the answer is
    "Failed to download video: Failed to download video.".  Only the
    success path schedules a deletion. *)
Theorem download_youtube_outcome decomp ydl url w w1 r :
  ydl url (path_join DOWNLOAD_FOLDER (s2l "%(id)s_%(title)s.%(ext)s")) w = (w1, r) ->
  download_youtube decomp ydl url w =
  match r with
  | inl e => (w1, inr (JsonError (s2l "Failed to download video: " ++ exn_str e)))
  | inr f0 =>
      match fs w1 !! mp4_filename f0 with
      | Some _ => (mkWorld (fs w1) (pending w1 ++ [(mp4_filename f0, 300%nat)]),
                   inr (file_response decomp (mp4_filename f0)))
      | None => (w1, inr (JsonError (s2l "Failed to download video: Failed to download video.")))
      end
  end.
Proof.
  intros Hf. unfold download_youtube, download_video, attempt, mbind, M_bind.
  rewrite Hf. destruct r as [e|f0]; [reflexivity|].
  unfold os_path_exists. destruct (fs w1 !! mp4_filename f0); reflexivity.
Qed.

Lemma download_youtube_outcome_witness :
  download_youtube ucd_decomp webm_fetcher (s2l "https://v/x") (mkWorld ∅ [])
  = (mkWorld (<[s2l "downloads/x.mp4" := File (Raw [0; 0; 0; 24])]> ∅)
       [(s2l "downloads/x.mp4", 300%nat)],
     inr (file_response ucd_decomp (s2l "downloads/x.mp4"))).
Proof.
  rewrite (download_youtube_outcome ucd_decomp webm_fetcher (s2l "https://v/x") (mkWorld ∅ [])
             (set_fs (<[s2l "downloads/x.mp4" := File (Raw [0; 0; 0; 24])]> ∅) (mkWorld ∅ []))
             (inr (s2l "downloads/x.webm")) ltac:(reflexivity)).
  vm_compute. reflexivity.
Defined.

(** The outcome of [GET /tiktok/download]: as for YouTube, with its own
    output template and the error prefix "Failed to download TikTok
    video: ". *)
Theorem download_tiktok_outcome decomp ydl url w w1 r :
  ydl url (path_join DOWNLOAD_FOLDER
             (s2l "tiktok_%(id)s_%(upload_date)s_%(timestamp)s.%(ext)s")) w = (w1, r) ->
  download_tiktok decomp ydl url w =
  match r with
  | inl e => (w1, inr (JsonError (s2l "Failed to download TikTok video: " ++ exn_str e)))
  | inr f0 =>
      match fs w1 !! mp4_filename f0 with
      | Some _ => (mkWorld (fs w1) (pending w1 ++ [(mp4_filename f0, 300%nat)]),
                   inr (file_response decomp (mp4_filename f0)))
      | None => (w1, inr (JsonError
                           (s2l "Failed to download TikTok video: Failed to download video.")))
      end
  end.
Proof.
  intros Hf. unfold download_tiktok, download_video, attempt, mbind, M_bind.
  rewrite Hf. destruct r as [e|f0]; [reflexivity|].
  unfold os_path_exists. destruct (fs w1 !! mp4_filename f0); reflexivity.
Qed.

Lemma download_tiktok_outcome_witness :
  download_tiktok ucd_decomp (fun _ _ w => (w, inr (s2l "downloads/tiktok_1.webm")))
    (s2l "https://t/1") (mkWorld ∅ [])
  = (mkWorld ∅ [],
     inr (JsonError (s2l "Failed to download TikTok video: Failed to download video."))).
Proof.
  rewrite (download_tiktok_outcome ucd_decomp (fun _ _ w => (w, inr (s2l "downloads/tiktok_1.webm")))
             (s2l "https://t/1") (mkWorld ∅ []) (mkWorld ∅ [])
             (inr (s2l "downloads/tiktok_1.webm")) ltac:(reflexivity)).
  vm_compute. reflexivity.
Defined.

(** ** The deletion thread *)

(** When a pending deletion fires and its path holds a file, the file is
    removed and the entry leaves the pending list; when the path is a
    directory, [os.remove] raises [IsADirectoryError] in the thread, the
    filesystem is unchanged and the entry is gone all the same. *)
Theorem fire_pending_existing_path (i : nat) (p : pystr) (delay : nat) (w : World) :
  pending w !! i = Some (p, delay) ->
  (forall b, fs w !! p = Some (File b) ->
     fire_pending i w =
     (mkWorld (delete p (fs w)) (take i (pending w) ++ drop (S i) (pending w)), inr tt))
  /\ (fs w !! p = Some Dir ->
     fire_pending i w =
     (mkWorld (fs w) (take i (pending w) ++ drop (S i) (pending w)),
      inl (IsADirectoryError (s2l "Is a directory")))).
Proof.
  intros Hpend. unfold fire_pending. rewrite Hpend.
  unfold delete_thread_body, mbind, M_bind, os_path_exists. cbn [fs pending].
  split; [intros b Hb | intros Hd]; [rewrite Hb | rewrite Hd];
    unfold os_remove; cbn [fs pending]; [rewrite Hb | rewrite Hd]; reflexivity.
Qed.

Lemma fire_pending_existing_path_witness :
  fire_pending 1 (mkWorld {[ s2l "pdf_uploads/x.pdf" := File (Raw [1]) ]}
                    [(s2l "a", 600%nat); (s2l "pdf_uploads/x.pdf", 300%nat)])
  = (mkWorld (delete (s2l "pdf_uploads/x.pdf") {[ s2l "pdf_uploads/x.pdf" := File (Raw [1]) ]})
       [(s2l "a", 600%nat)], inr tt).
Proof.
  exact (proj1 (fire_pending_existing_path 1 (s2l "pdf_uploads/x.pdf") 300
                  (mkWorld {[ s2l "pdf_uploads/x.pdf" := File (Raw [1]) ]}
                     [(s2l "a", 600%nat); (s2l "pdf_uploads/x.pdf", 300%nat)])
                  ltac:(reflexivity)) (Raw [1]) ltac:(vm_compute; reflexivity)).
Defined.

(** ** Saving from the cursor *)

(** [save_upload_file] reads from the upload's current position (it seeks
    to 0 only after copying): with the cursor at [pos], the stored file
    holds the payload from [pos] on, an existing file there is replaced,
    and the upload is returned with its cursor back at 0. *)
Theorem save_upload_file_from_cursor filename data pos folder u w :
  fs w !! upload_path folder filename u <> Some Dir ->
  save_upload_file (mkUpload filename data pos) folder u w =
  (set_fs (<[upload_path folder filename u := File (Raw (drop pos data))]> (fs w)) w,
   inr (upload_path folder filename u, mkUpload filename data 0)).
Proof. intros H. exact (save_upload_file_spec (mkUpload filename data pos) folder u w H). Qed.

Lemma save_upload_file_from_cursor_witness :
  save_upload_file (mkUpload (s2l "a.pdf") [37; 80; 68; 70] 2) PDF_DOWNLOAD_FOLDER 5
    (mkWorld ∅ [])
  = (set_fs (<[upload_path PDF_DOWNLOAD_FOLDER (s2l "a.pdf") 5 := File (Raw [68; 70])]> ∅)
       (mkWorld ∅ []),
     inr (upload_path PDF_DOWNLOAD_FOLDER (s2l "a.pdf") 5, mkUpload (s2l "a.pdf") [37; 80; 68; 70] 0)).
Proof.
  exact (save_upload_file_from_cursor (s2l "a.pdf") [37; 80; 68; 70] 2 PDF_DOWNLOAD_FOLDER 5
           (mkWorld ∅ []) ltac:(simpl; rewrite lookup_empty; discriminate)).
Defined.

(** ** The workbook written by [convert_pdf_tables_to_excel] *)

Lemma tables_of_filter pages :
  tables_of pages
  = (fun t => match t with Some (hdr :: rows) => (hdr, rows) | _ => ([], []) end)
      <$> List.filter has_table pages.
Proof.
  induction pages as [|[[|hdr rows]|] pages IH]; simpl; try rewrite IH; reflexivity.
Qed.

Lemma imap_sheets_fst {X} (g : nat -> pystr) (l : list X) :
  fst <$> imap (fun i df => (g i, df)) l = g <$> seq 0 (length l).
Proof. rewrite fmap_imap. apply (imap_seq_0 l g). Qed.

Lemma imap_sheets_snd {X} (g : nat -> pystr) (l : list X) :
  snd <$> imap (fun i df => (g i, df)) l = l.
Proof.
  rewrite fmap_imap. rewrite (imap_ext _ (const id)) by reflexivity.
  rewrite imap_const. apply list_fmap_id.
Qed.

(** When the PDF exists and at least one page yields a table with a first
    row, [convert_pdf_tables_to_excel] writes (or replaces) the workbook
    and nothing else: one sheet per such page, in page order, named
    "Sheet1", "Sheet2", ..., whose header is the table's first row and
    whose rows are the remaining ones; pages without a table are skipped
    and leave no gap in the numbering. *)
Theorem convert_pdf_tables_to_excel_sheets plumber pdf_path excel_path w b pages :
  fs w !! pdf_path = Some (File b) -> plumber b = inr pages ->
  fs w !! excel_path <> Some Dir -> existsb has_table pages = true ->
  exists sheets,
    convert_pdf_tables_to_excel plumber pdf_path excel_path w
    = (set_fs (<[excel_path := File (Workbook sheets)]> (fs w)) w, inr tt)
    /\ fst <$> sheets
       = (fun i => s2l "Sheet" ++ py_str_nat (S i))
           <$> seq 0 (length (List.filter has_table pages))
    /\ snd <$> sheets
       = (fun t => match t with Some (hdr :: rows) => (hdr, rows) | _ => ([], []) end)
           <$> List.filter has_table pages.
Proof.
  intros Hf Hp Hnd Hex.
  exists (imap (fun i df => (s2l "Sheet" ++ py_str_nat (S i), df)) (tables_of pages)).
  split; [|split].
  - assert (Hne : tables_of pages <> []).
    { rewrite tables_of_filter. apply existsb_exists in Hex as [t [Ht Hh]].
      intros E. apply fmap_nil_inv in E.
      assert (Hin : In t (List.filter has_table pages)) by (apply filter_In; auto).
      rewrite E in Hin. exact Hin. }
    unfold convert_pdf_tables_to_excel.
    rewrite (bind_inr _ _ w w b) by (unfold read_file; rewrite Hf; reflexivity).
    rewrite (bind_inr _ _ w w pages) by (unfold lift_result; rewrite Hp; reflexivity).
    destruct (tables_of pages) as [|t ts]; [contradiction|].
    unfold write_file. destruct (fs w !! excel_path) as [[]|]; [reflexivity|contradiction|reflexivity].
  - rewrite imap_sheets_fst, tables_of_filter, length_fmap. reflexivity.
  - rewrite imap_sheets_snd. apply tables_of_filter.
Qed.

Lemma convert_pdf_tables_to_excel_sheets_witness :
  exists sheets,
    convert_pdf_tables_to_excel
      (fun _ => inr [Some [[Some (s2l "h")]; [Some (s2l "1")]]; None; Some [];
                     Some [[None]]])
      (s2l "p.pdf") (s2l "o.xlsx") (mkWorld (<[s2l "p.pdf" := File (Raw [])]> ∅) [])
    = (set_fs (<[s2l "o.xlsx" := File (Workbook sheets)]> (<[s2l "p.pdf" := File (Raw [])]> ∅))
         (mkWorld (<[s2l "p.pdf" := File (Raw [])]> ∅) []), inr tt)
    /\ fst <$> sheets = [s2l "Sheet1"; s2l "Sheet2"].
Proof.
  pose proof (convert_pdf_tables_to_excel_sheets
                (fun _ => inr [Some [[Some (s2l "h")]; [Some (s2l "1")]]; None; Some [];
                               Some [[None]]])
                (s2l "p.pdf") (s2l "o.xlsx") (mkWorld (<[s2l "p.pdf" := File (Raw [])]> ∅) [])
                (Raw []) [Some [[Some (s2l "h")]; [Some (s2l "1")]]; None; Some [];
                          Some [[None]]]) as Hc.
  specialize (Hc ltac:(vm_compute; reflexivity) ltac:(reflexivity)
                 ltac:(vm_compute; intros H; discriminate H) ltac:(reflexivity)).
  destruct Hc as [sheets [H1 [H2 _]]].
  exists sheets. split; [exact H1|]. rewrite H2. reflexivity.
Defined.

(** ** The [Content-Disposition] header *)

Lemma header_value_quotes fname :
  Forall (fun c => allowed_cp c = true) fname ->
  count_occ Z.eq_dec (s2l "attachment; filename=" ++ [QUOTE] ++ fname ++ [QUOTE]) QUOTE = 2%nat
  /\ ~ In 10 (s2l "attachment; filename=" ++ [QUOTE] ++ fname ++ [QUOTE])
  /\ ~ In 13 (s2l "attachment; filename=" ++ [QUOTE] ++ fname ++ [QUOTE]).
Proof.
  intros Hf.
  assert (Hnot : forall c, allowed_cp c = false -> ~ In c fname).
  { intros c Hc Hin. rewrite List.Forall_forall in Hf. specialize (Hf c Hin). congruence. }
  assert (Hlit : forall c, c = 10 \/ c = 13 \/ c = QUOTE -> ~ In c (s2l "attachment; filename=")).
  { intros c Hc Hin. vm_compute in Hin. unfold QUOTE in Hc. lia. }
  split; [|split].
  - rewrite !count_occ_app.
    rewrite (proj1 (count_occ_not_In _ _ _) (Hnot QUOTE eq_refl)).
    rewrite (proj1 (count_occ_not_In _ _ _) (Hlit QUOTE ltac:(auto))).
    simpl. destruct (Z.eq_dec QUOTE QUOTE); [reflexivity|contradiction].
  - rewrite !in_app_iff. intros [H|[H|[H|H]]].
    + exact (Hlit 10 ltac:(auto) H).
    + destruct H as [H|[]]. unfold QUOTE in H. discriminate.
    + exact (Hnot 10 eq_refl H).
    + destruct H as [H|[]]. unfold QUOTE in H. discriminate.
  - rewrite !in_app_iff. intros [H|[H|[H|H]]].
    + exact (Hlit 13 ltac:(auto) H).
    + destruct H as [H|[]]. unfold QUOTE in H. discriminate.
    + exact (Hnot 13 eq_refl H).
    + destruct H as [H|[]]. unfold QUOTE in H. discriminate.
Qed.

(** Every file response (of the download and PDF handlers) serves the
    given path under the sanitized basename, and its only header is
    [Content-Disposition: attachment; filename="<name>"] where the name
    has only [A-Za-z0-9._-]: the value holds exactly the two enclosing
    double quotes and no line break, whatever the path. *)
Theorem file_response_header_safe decomp path :
  let fname := ascii_filename decomp (basename path) in
  let value := s2l "attachment; filename=" ++ [QUOTE] ++ fname ++ [QUOTE] in
  file_response decomp path = FileResponse path fname [(s2l "Content-Disposition", value)]
  /\ Forall (fun c => allowed_cp c = true) fname
  /\ count_occ Z.eq_dec value QUOTE = 2%nat
  /\ ~ In 10 value /\ ~ In 13 value.
Proof.
  intros fname value. split; [reflexivity|].
  pose proof (ascii_filename_allowed decomp (basename path)) as Ha.
  split; [exact Ha|]. exact (header_value_quotes _ Ha).
Qed.

(** ** Where the handlers write *)

Lemma rfind_aux_ge_best c s i best : best < i -> best <= rfind_aux c s i best.
Proof.
  revert i best. induction s as [|x s IH]; intros i best Hb; simpl; [lia|].
  specialize (IH (i + 1) (if x =? c then i else best)).
  destruct (x =? c); lia.
Qed.

Lemma rfind_aux_ge_index c s i best j :
  best < i -> s !! j = Some c -> i + Z.of_nat j <= rfind_aux c s i best.
Proof.
  revert i best j. induction s as [|x s IH]; intros i best j Hb Hj; [discriminate|].
  destruct j as [|j]; simpl in Hj |- *.
  - injection Hj as ->. rewrite Z.eqb_refl.
    pose proof (rfind_aux_ge_best c s (i + 1) i ltac:(lia)). lia.
  - specialize (IH (i + 1) (if x =? c then i else best) j
                  ltac:(destruct (x =? c); lia) Hj). lia.
Qed.

Lemma rfind_aux_found c s i best :
  rfind_aux c s i best = best
  \/ (i <= rfind_aux c s i best /\ s !! Z.to_nat (rfind_aux c s i best - i) = Some c).
Proof.
  revert i best. induction s as [|x s IH]; intros i best; simpl; [left; reflexivity|].
  destruct (IH (i + 1) (if x =? c then i else best)) as [E|[Hle Hs]]; rewrite ?E.
  - destruct (Z.eqb_spec x c) as [->|]; [right|left; reflexivity].
    rewrite Z.sub_diag. split; [lia|reflexivity].
  - right. split; [lia|].
    replace (Z.to_nat (rfind_aux c s (i + 1) (if x =? c then i else best) - i))
      with (S (Z.to_nat (rfind_aux c s (i + 1) (if x =? c then i else best) - (i + 1))))
      by lia.
    exact Hs.
Qed.

Lemma splitext_ext_no_sep p : Forall (fun c => c <> SEP) (snd (splitext p)).
Proof.
  unfold splitext.
  pose proof (rfind_aux_ge_best SEP p 0 (-1) ltac:(lia)) as Hs.
  destruct (Z.ltb_spec (rfind p SEP) (rfind p DOT)) as [Hlt|]; [|constructor].
  destruct (forallb _ _); [constructor|]. simpl.
  apply Forall_lookup. intros k x Hk Hx. subst x.
  rewrite lookup_drop in Hk.
  pose proof (rfind_aux_ge_index SEP p 0 (-1) _ ltac:(lia) Hk) as H.
  unfold rfind in *. lia.
Qed.

Lemma py_lower_no_sep s : Forall (fun c => c <> SEP) s -> Forall (fun c => c <> SEP) (py_lower s).
Proof.
  intros H. unfold py_lower. apply Forall_map. eapply Forall_impl; [exact H|].
  intros c Hc. unfold lower_cp, SEP in *.
  destruct ((65 <=? c) && (c <=? 90)) eqn:E; [|exact Hc].
  apply andb_true_iff in E as [E1 E2]. apply Z.leb_le in E1. lia.
Qed.

Lemma uuid_hex_no_sep u : Forall (fun c => c <> SEP) (uuid_hex u).
Proof.
  eapply Forall_impl; [apply hex_digits_lower|]. intros c Hc. unfold lower_hex_cp, SEP in *. lia.
Qed.

Ltac no_sep_lit := repeat constructor; unfold SEP; discriminate.

(** Whatever the uploaded filename (with "/" or ".." in it), every path
    the handlers create is one component directly inside its folder: the
    stored upload is [folder/<name>], the workbook, the document, the
    session folder and the archive are [excel_outputs/<name>],
    [word_outputs/<name>] and [image_outputs/<name>], with no "/" in
    [<name>]. *)
Theorem output_paths_single_component decomp filename folder u :
  (exists n, upload_path folder filename u = folder ++ [SEP] ++ n
             /\ Forall (fun c => c <> SEP) n)
  /\ (exists n, excel_output_path decomp filename u = EXCEL_DOWNLOAD_FOLDER ++ [SEP] ++ n
             /\ Forall (fun c => c <> SEP) n)
  /\ (exists n, word_output_path decomp filename u = WORD_DOWNLOAD_FOLDER ++ [SEP] ++ n
             /\ Forall (fun c => c <> SEP) n)
  /\ (exists n, image_session_folder decomp filename u = IMAGE_DOWNLOAD_FOLDER ++ [SEP] ++ n
             /\ Forall (fun c => c <> SEP) n)
  /\ (exists n, image_zip_path decomp filename u = IMAGE_DOWNLOAD_FOLDER ++ [SEP] ++ n
             /\ Forall (fun c => c <> SEP) n).
Proof.
  pose proof (safe_stem_no_sep decomp filename) as Hs.
  pose proof (uuid_hex_no_sep u) as Hu.
  assert (Hn : forall sfx, Forall (fun c => c <> SEP) sfx ->
             Forall (fun c => c <> SEP) (safe_stem decomp filename ++ s2l "_" ++ uuid_hex u ++ sfx)).
  { intros sfx Hsfx. apply Forall_app. split; [exact Hs|].
    apply Forall_app. split; [no_sep_lit|]. apply Forall_app. split; assumption. }
  split; [|split; [|split; [|split]]]; eexists; (split; [reflexivity|]).
  - unfold unique_upload_name. apply Forall_app. split; [exact Hu|].
    destruct (snd (splitext filename)) as [|c cs] eqn:E; [constructor|].
    apply py_lower_no_sep. rewrite <- E. apply splitext_ext_no_sep.
  - apply Hn. no_sep_lit.
  - apply Hn. no_sep_lit.
  - rewrite <- (app_nil_r (uuid_hex u)). apply Hn. constructor.
  - apply Hn. no_sep_lit.
Qed.

(** ** Output names of distinct requests *)

Lemma hex_suffix_inj a b u u' sfx :
  0 <= u < 2 ^ 128 -> 0 <= u' < 2 ^ 128 ->
  ((a ++ uuid_hex u) ++ sfx = (b ++ uuid_hex u') ++ sfx) -> u = u'.
Proof.
  intros H1 H2 E. apply app_inv_tail in E.
  apply app_inj_2 in E as [_ E]; [|unfold uuid_hex; rewrite !hex_digits_length; reflexivity].
  apply uuid_hex_inj; assumption.
Qed.

(** Two requests whose second [uuid4] draws differ never share an output
    path, whatever their filenames: the workbooks, documents, session
    folders and archives of one request cannot overwrite another's. *)
Theorem output_paths_distinct_ids decomp filename1 filename2 u u' :
  0 <= u < 2 ^ 128 -> 0 <= u' < 2 ^ 128 -> u <> u' ->
  excel_output_path decomp filename1 u <> excel_output_path decomp filename2 u'
  /\ word_output_path decomp filename1 u <> word_output_path decomp filename2 u'
  /\ image_session_folder decomp filename1 u <> image_session_folder decomp filename2 u'
  /\ image_zip_path decomp filename1 u <> image_zip_path decomp filename2 u'.
Proof.
  intros H1 H2 Hne.
  unfold excel_output_path, word_output_path, image_session_folder, image_zip_path, path_join.
  split; [|split; [|split]]; intros E; rewrite !app_assoc in E; apply Hne.
  - exact (hex_suffix_inj _ _ u u' _ H1 H2 E).
  - exact (hex_suffix_inj _ _ u u' _ H1 H2 E).
  - rewrite <- (app_nil_r (_ ++ uuid_hex u)), <- (app_nil_r (_ ++ uuid_hex u')) in E.
    exact (hex_suffix_inj _ _ u u' _ H1 H2 E).
  - exact (hex_suffix_inj _ _ u u' _ H1 H2 E).
Qed.

Lemma output_paths_distinct_ids_witness :
  excel_output_path ucd_decomp (s2l "a.pdf") 1 <> excel_output_path ucd_decomp (s2l "a.pdf") 2.
Proof.
  exact (proj1 (output_paths_distinct_ids ucd_decomp (s2l "a.pdf") (s2l "a.pdf") 1 2
                  ltac:(lia) ltac:(lia) ltac:(lia))).
Defined.

(** ** [os.path.splitext] *)

(** [splitext] splits a path into a root and an extension that
    concatenate back to it; the extension is empty or starts with "." and
    never contains "/" (it is taken from the last path component). *)
Theorem splitext_parts p :
  fst (splitext p) ++ snd (splitext p) = p
  /\ Forall (fun c => c <> SEP) (snd (splitext p))
  /\ (snd (splitext p) = [] \/ head (snd (splitext p)) = Some DOT).
Proof.
  split; [|split; [apply splitext_ext_no_sep|]].
  - unfold splitext. destruct (_ <? _); [|apply app_nil_r].
    destruct (forallb _ _); [apply app_nil_r|]. apply take_drop.
  - unfold splitext.
    pose proof (rfind_aux_ge_best SEP p 0 (-1) ltac:(lia)) as Hs.
    destruct (Z.ltb_spec (rfind p SEP) (rfind p DOT)) as [Hlt|]; [|left; reflexivity].
    destruct (forallb _ _); [left; reflexivity|]. simpl.
    destruct (rfind_aux_found DOT p 0 (-1)) as [E|[Hle Hd]].
    + unfold rfind in Hlt, Hs. lia.
    + fold (rfind p DOT) in Hd. rewrite Z.sub_0_r in Hd.
      right. destruct (drop (Z.to_nat (rfind p DOT)) p) as [|x xs] eqn:D.
      * apply (f_equal (fun l => l !! 0%nat)) in D. rewrite lookup_drop, Nat.add_0_r, Hd in D.
        discriminate.
      * apply (f_equal (fun l => l !! 0%nat)) in D. rewrite lookup_drop, Nat.add_0_r, Hd in D.
        simpl in D |- *. symmetry. exact D.
Qed.

(** ** After a successful image conversion *)

Lemma pdf_to_image_pages_world decomp page_count filename data u1 u2 w N :
  is_pdf_name filename = true ->
  fs w !! upload_path PDF_DOWNLOAD_FOLDER filename u1 <> Some Dir ->
  (forall k, is_under (image_session_folder decomp filename u2) k = true -> fs w !! k = None) ->
  fs w !! image_zip_path decomp filename u2 <> Some Dir ->
  page_count (Raw data) = inr N -> N <> 0%nat ->
  pdf_to_image decomp (create_images_zip page_count) (mkUpload filename data 0) u1 u2 w
  = (mkWorld
       (rmtree_fs (image_session_folder decomp filename u2)
          (<[image_zip_path decomp filename u2 :=
              File (Archive (map (fun i => (page_png_name (safe_stem decomp filename) (S i),
                                            PngImage (Raw data) i)) (seq 0 N)))]>
             (write_pages (Raw data)
                (page_image_path (image_session_folder decomp filename u2)
                   (safe_stem decomp filename))
                (<[image_session_folder decomp filename u2 := Dir]>
                   (<[upload_path PDF_DOWNLOAD_FOLDER filename u1 := File (Raw data)]> (fs w)))
                (seq 0 N))))
       ((pending w ++ [(upload_path PDF_DOWNLOAD_FOLDER filename u1, 300%nat)])
          ++ [(image_zip_path decomp filename u2, 600%nat)]),
     inr (file_response decomp (image_zip_path decomp filename u2))).
Proof.
  intros Hv Hpdf Hsess Hz Hp HN.
  pose proof (save_upload_file_spec (mkUpload filename data 0) PDF_DOWNLOAD_FOLDER u1 w Hpdf)
    as Hs. cbn [up_filename up_data up_pos drop] in Hs.
  set (pdf := upload_path PDF_DOWNLOAD_FOLDER filename u1) in *.
  set (session := image_session_folder decomp filename u2) in *.
  set (zip := image_zip_path decomp filename u2) in *.
  set (base := safe_stem decomp filename).
  set (w1 := set_fs (<[pdf := File (Raw data)]> (fs w)) w) in Hs.
  assert (Hses_pdf : session <> pdf) by apply upload_path_pdf_ne_session.
  assert (Hzip_pdf : zip <> pdf) by apply upload_path_pdf_ne_image_zip.
  assert (Hzip_ses : zip <> session) by apply image_zip_ne_session.
  assert (Hm : makedirs_exist_ok session w1 = (set_fs (<[session := Dir]> (fs w1)) w1, inr tt)).
  { unfold makedirs_exist_ok. simpl. rewrite lookup_insert_ne by (apply not_eq_sym, Hses_pdf).
    rewrite (Hsess session (is_under_refl session)). reflexivity. }
  set (w1' := set_fs (<[session := Dir]> (fs w1)) w1) in Hm.
  set (entries := map (fun i => (page_png_name base (S i), PngImage (Raw data) i)) (seq 0 N)).
  assert (Hc : create_images_zip page_count pdf session zip base w1' =
               (set_fs (<[zip := File (Archive entries)]>
                          (write_pages (Raw data) (page_image_path session base) (fs w1')
                             (seq 0 N))) w1', inr tt)).
  { apply create_images_zip_run.
    - simpl. rewrite lookup_insert_ne by exact Hses_pdf. apply lookup_insert_eq.
    - exact Hp.
    - exact HN.
    - apply safe_stem_no_sep.
    - intros i. simpl.
      rewrite lookup_insert_ne by (apply not_eq_sym, page_ne_session).
      rewrite lookup_insert_ne by (apply not_eq_sym, page_ne_pdf).
      rewrite (Hsess _ (session_contains_page session base i)). discriminate.
    - intros i. apply page_ne_zip.
    - simpl. rewrite lookup_insert_ne by (apply not_eq_sym, Hzip_ses).
      rewrite lookup_insert_ne by (apply not_eq_sym, Hzip_pdf). exact Hz. }
  exact (pdf_to_image_success_run decomp (create_images_zip page_count)
           (mkUpload filename data 0) u1 u2 w _ _ _ _ _ Hv Hs Hm Hc).
Qed.

(** After a successful image conversion the handler has removed the
    session folder with every rendered page below it, keeps the uploaded
    PDF and the archive on disk, changes nothing else in the filesystem,
    and has scheduled the deletion of the PDF after 300 s and of the
    archive after 600 s. *)
Theorem pdf_to_image_success_cleanup decomp page_count filename data u1 u2 w N :
  is_pdf_name filename = true ->
  fs w !! upload_path PDF_DOWNLOAD_FOLDER filename u1 <> Some Dir ->
  (forall k, is_under (image_session_folder decomp filename u2) k = true -> fs w !! k = None) ->
  fs w !! image_zip_path decomp filename u2 <> Some Dir ->
  page_count (Raw data) = inr N -> (1 <= N)%nat ->
  exists w',
    pdf_to_image decomp (create_images_zip page_count) (mkUpload filename data 0) u1 u2 w
    = (w', inr (file_response decomp (image_zip_path decomp filename u2)))
    /\ (forall k, is_under (image_session_folder decomp filename u2) k = true ->
          fs w' !! k = None)
    /\ fs w' !! upload_path PDF_DOWNLOAD_FOLDER filename u1 = Some (File (Raw data))
    /\ (exists entries,
          fs w' !! image_zip_path decomp filename u2 = Some (File (Archive entries)))
    /\ (forall k, is_under (image_session_folder decomp filename u2) k = false ->
          k <> upload_path PDF_DOWNLOAD_FOLDER filename u1 ->
          k <> image_zip_path decomp filename u2 ->
          fs w' !! k = fs w !! k)
    /\ pending w' = pending w ++ [(upload_path PDF_DOWNLOAD_FOLDER filename u1, 300%nat);
                                  (image_zip_path decomp filename u2, 600%nat)].
Proof.
  intros Hv Hpdf Hsess Hz Hp HN.
  rewrite (pdf_to_image_pages_world decomp page_count filename data u1 u2 w N
             Hv Hpdf Hsess Hz Hp ltac:(lia)).
  set (pdf := upload_path PDF_DOWNLOAD_FOLDER filename u1).
  set (session := image_session_folder decomp filename u2).
  set (zip := image_zip_path decomp filename u2).
  set (base := safe_stem decomp filename).
  set (entries := map (fun i => (page_png_name base (S i), PngImage (Raw data) i)) (seq 0 N)).
  assert (Hses_pdf : session <> pdf) by apply upload_path_pdf_ne_session.
  assert (Hzip_pdf : zip <> pdf) by apply upload_path_pdf_ne_image_zip.
  assert (Hzip_ses : zip <> session) by apply image_zip_ne_session.
  set (F := <[zip := File (Archive entries)]>
              (write_pages (Raw data) (page_image_path session base)
                 (<[session := Dir]> (<[pdf := File (Raw data)]> (fs w))) (seq 0 N))).
  assert (HF : forall k, (forall j, page_image_path session base j <> k) -> k <> zip ->
                 F !! k = (<[session := Dir]> (<[pdf := File (Raw data)]> (fs w))) !! k).
  { intros k Hk Hkz. unfold F. rewrite lookup_insert_ne by (apply not_eq_sym, Hkz).
    apply write_pages_lookup_other. intros j _. apply Hk. }
  assert (HFs : F !! session = Some Dir).
  { rewrite HF; [apply lookup_insert_eq | apply page_ne_session | exact (not_eq_sym Hzip_ses)]. }
  assert (Hpdf_out : is_under session pdf = false) by apply pdf_path_not_under_image.
  assert (Hzip_out : is_under session zip = false) by apply zip_not_under_session.
  eexists. split; [reflexivity|]. cbn [fs pending].
  split; [|split; [|split; [|split]]].
  - intros k Hk. exact (rmtree_fs_under _ _ _ HFs Hk).
  - rewrite rmtree_fs_not_under by exact Hpdf_out.
    rewrite HF; [| intros j; apply page_ne_pdf | exact (not_eq_sym Hzip_pdf)].
    rewrite lookup_insert_ne by exact Hses_pdf. apply lookup_insert_eq.
  - exists entries. rewrite rmtree_fs_not_under by exact Hzip_out. apply lookup_insert_eq.
  - intros k Hk Hkp Hkz. rewrite rmtree_fs_not_under by exact Hk.
    rewrite HF; [| intros j E; rewrite <- E, session_contains_page in Hk; discriminate
                 | exact Hkz].
    rewrite lookup_insert_ne by (intros E; rewrite <- E, is_under_refl in Hk; discriminate).
    rewrite lookup_insert_ne by (apply not_eq_sym, Hkp). reflexivity.
  - rewrite <- app_assoc. reflexivity.
Qed.

Lemma pdf_to_image_success_cleanup_witness :
  exists w',
    pdf_to_image ucd_decomp (create_images_zip (fun _ => inr 2%nat))
      (mkUpload (s2l "report.pdf") [37; 80; 68; 70] 0) 1 2 (mkWorld ∅ [])
    = (w', inr (file_response ucd_decomp (image_zip_path ucd_decomp (s2l "report.pdf") 2)))
    /\ (forall k, is_under (image_session_folder ucd_decomp (s2l "report.pdf") 2) k = true ->
          fs w' !! k = None).
Proof.
  destruct (pdf_to_image_success_cleanup ucd_decomp (fun _ => inr 2%nat) (s2l "report.pdf")
              [37; 80; 68; 70] 1 2 (mkWorld ∅ []) 2)
    as [w' [H1 [H2 _]]].
  - reflexivity.
  - simpl. rewrite lookup_empty. discriminate.
  - intros k _. apply lookup_empty.
  - simpl. rewrite lookup_empty. discriminate.
  - reflexivity.
  - lia.
  - exists w'. split; assumption.
Defined.

(** ** Directory components of an uploaded name *)

Lemma rfind_aux_shift c y i best :
  rfind_aux c y i best
  = if existsb (fun x => x =? c) y then i + rfind_aux c y 0 0 else best.
Proof.
  revert i best. induction y as [|a y IH]; intros i best; simpl; [reflexivity|].
  rewrite (IH (i + 1)), (IH 1).
  destruct (a =? c), (existsb (fun x => x =? c) y); simpl; lia.
Qed.

Lemma rfind_aux_nonneg c y i b : 0 <= i -> 0 <= b -> 0 <= rfind_aux c y i b.
Proof.
  revert i b. induction y as [|a y IH]; intros i b Hi Hb; simpl; [lia|].
  apply IH; [lia|]. destruct (a =? c); lia.
Qed.

Lemma basename_after_sep x y : basename (x ++ SEP :: y) = basename y.
Proof.
  unfold basename, rfind. rewrite rfind_aux_app. simpl.
  rewrite (rfind_aux_shift SEP y (0 + Z.of_nat (length x) + 1)).
  rewrite (rfind_aux_shift SEP y 0 (-1)).
  destruct (existsb (fun z => z =? SEP) y).
  - pose proof (rfind_aux_nonneg SEP y 0 0 ltac:(lia) ltac:(lia)).
    replace (Z.to_nat (0 + Z.of_nat (length x) + 1 + rfind_aux SEP y 0 0 + 1))
      with (length x + S (Z.to_nat (0 + rfind_aux SEP y 0 0 + 1)))%nat by lia.
    rewrite drop_app_ge by lia.
    replace (length x + S (Z.to_nat (0 + rfind_aux SEP y 0 0 + 1)) - length x)%nat
      with (S (Z.to_nat (0 + rfind_aux SEP y 0 0 + 1))) by lia.
    reflexivity.
  - replace (Z.to_nat (-1 + 1)) with O by reflexivity.
    rewrite drop_0.
    replace (Z.to_nat (0 + Z.of_nat (length x) + 1)) with (S (length x)) by lia.
    rewrite drop_app_ge by lia.
    replace (S (length x) - length x)%nat with 1%nat by lia. reflexivity.
Qed.

(** Only the last path component of an uploaded file name matters for the
    names the handlers derive from it: a name [dir/name] gives the same
    stem, and so the same Excel, Word, image-folder and archive paths, as
    [name] alone (for the same identifier). *)
Theorem safe_stem_ignores_directories decomp dir name u :
  safe_stem decomp (dir ++ SEP :: name) = safe_stem decomp name
  /\ excel_output_path decomp (dir ++ SEP :: name) u = excel_output_path decomp name u
  /\ word_output_path decomp (dir ++ SEP :: name) u = word_output_path decomp name u
  /\ image_session_folder decomp (dir ++ SEP :: name) u = image_session_folder decomp name u
  /\ image_zip_path decomp (dir ++ SEP :: name) u = image_zip_path decomp name u.
Proof.
  assert (H : safe_stem decomp (dir ++ SEP :: name) = safe_stem decomp name).
  { unfold safe_stem. rewrite basename_after_sep. reflexivity. }
  unfold excel_output_path, word_output_path, image_session_folder, image_zip_path.
  rewrite H. repeat split.
Qed.
